(** * JobPrediction-LLM: the forecasting pipeline, embedded and verified

    A shallow embedding of the parts of the repository that decide the
    forecasting contracts:

    - [ml/datasets.py]: [TimeSeriesDataset], [split_time_series],
      [prepare_datasets];
    - [ml/evaluate.py], [ml/baselines.py]: the directional-accuracy metric
      and [NaiveBaseline];
    - [ml/train.py], [backend/app/config.py]: the two computations of the
      artifact directory key;
    - [backend/app/services/data_store.py], [.../forecast.py]: history
      loading, the model cache, [predict_recursive] and [forecast].

    Conventions.  Python floats are idealised as rationals ([Q]); rounding,
    infinities and NaN are outside the model, and "NaN" as a metric value is
    [None].  Python [str] is [string] (bytes), so [lower] is ASCII lower-casing.
    Exceptions are an error type and every fallible function returns
    [result].  The service object and the file system are an explicit state
    that is threaded through the calls. *)

From Stdlib Require Import ZArith QArith Qround Qabs List Sorting.Sorted Sorting.Permutation.
From Stdlib Require Import Strings.String Strings.Ascii Lia Bool.
From stdpp Require Import gmap strings.
Import ListNotations.

Local Open Scope Z_scope.

(** ** Exceptions and results *)

Inductive exn : Type :=
| AssertionError      (* [assert] failed: split ratios do not sum to 1.0 *)
| UnknownScalerType   (* [ValueError("Unknown scaler_type ...")] *)
| NotFittedError      (* sklearn: transform before fit *)
| NotFittedBaseline   (* [ValueError("Model must be fitted before prediction")] *)
| FileNotFoundError   (* no artifact directory / no history CSV *)
| InsufficientHistory (* [ValueError("Insufficient historical data ...")] *)
| IndexError          (* index out of range *)
| ShapeError          (* numpy: cannot build / reshape the array *)
| NegativeDimensions  (* numpy: [np.full] with a negative length *).

Inductive result (A : Type) : Type :=
| Ok (a : A)
| Raise (e : exn).
Arguments Ok {A} a.
Arguments Raise {A} e.

Definition rbind {A B} (r : result A) (k : A -> result B) : result B :=
  match r with
  | Ok a => k a
  | Raise e => Raise e
  end.

Notation "x <-! r ;; k" := (rbind r (fun x => k))
  (at level 100, r at next level, k at level 200, right associativity).

(** ** Python built-ins used by the sources *)

Module Py.

(** [range(n)] for an integer [n]: empty when [n <= 0]. *)
Definition range (n : Z) : list nat := seq 0 (Z.to_nat n).

(** [l[start:stop]] with the bounds resolved as Python does: a negative
    bound counts from the end, and both are clipped to [0, len]. *)
Definition resolve (len : Z) (i : Z) : nat :=
  Z.to_nat (Z.min len (if i <? 0 then Z.max 0 (len + i) else i)).

Definition slice {A} (l : list A) (start stop : option Z) : list A :=
  let len := Z.of_nat (length l) in
  let lo := match start with None => 0%nat | Some i => resolve len i end in
  let hi := match stop with None => length l | Some i => resolve len i end in
  firstn (hi - lo) (skipn lo l).

(** [l[i]]: a negative index counts from the end; out of range raises. *)
Definition getitem {A} (l : list A) (i : Z) : result A :=
  let len := Z.of_nat (length l) in
  let j := if i <? 0 then len + i else i in
  if (j <? 0) || (len <=? j) then Raise IndexError
  else match nth_error l (Z.to_nat j) with
       | Some a => Ok a
       | None => Raise IndexError
       end.

(** A loop body that may raise, run over a list in order. *)
Fixpoint mapM {A B} (f : A -> result B) (l : list A) : result (list B) :=
  match l with
  | [] => Ok []
  | a :: t => b <-! f a ;; bs <-! mapM f t ;; Ok (b :: bs)
  end.

(** Float comparisons. *)
Definition ltb (x y : Q) : bool := negb (Qle_bool y x).
Definition gtb (x y : Q) : bool := ltb y x.

(** [int(x)] on a float: truncation toward zero. *)
Definition int (x : Q) : Z := Z.quot (Qnum x) (Zpos (Qden x)).

(** [str.lower()], on the ASCII letters. *)
Definition lower_ascii (c : ascii) : ascii :=
  let n := nat_of_ascii c in
  if ((65 <=? n)%nat && (n <=? 90)%nat)%bool then ascii_of_nat (n + 32) else c.

Fixpoint lower (s : string) : string :=
  match s with
  | EmptyString => EmptyString
  | String c s' => String (lower_ascii c) (lower s')
  end.

(** [old in s]: substring test. *)
Fixpoint contains (old s : string) : bool :=
  if String.prefix old s then true
  else match s with
       | EmptyString => false
       | String _ s' => contains old s'
       end.

(** [s.replace(old, new)] for a non-empty [old]: left to right, matches do
    not overlap.  [skip] counts the characters of the current match that
    are still to be dropped. *)
Fixpoint replace_from (old new : string) (skip : nat) (s : string) : string :=
  match s with
  | EmptyString => EmptyString
  | String c s' =>
      match skip with
      | S k => replace_from old new k s'
      | O => if String.prefix old s
             then String.append new (replace_from old new (String.length old - 1) s')
             else String c (replace_from old new 0 s')
      end
  end.

Definition replace (old new s : string) : string := replace_from old new 0 s.

End Py.

(** ** Artifact directory keys *)

Module Slug.

(** [while "__" in s: s = s.replace("__", "_")].  Every pass that runs
    shortens [s], so [length s] passes are enough. *)
Fixpoint collapse_loop (fuel : nat) (s : string) : string :=
  match fuel with
  | O => s
  | S n => if Py.contains "__" s then collapse_loop n (Py.replace "__" "_" s) else s
  end.

Definition collapse_underscores (s : string) : string :=
  collapse_loop (String.length s) s.

(** [backend/app/config.py], [Settings.get_artifacts_path] (the same two
    slugs name the CSV in [DataStore.get_csv_path]). *)
Definition role_slug (role : string) : string :=
  Py.replace " " "_" (Py.lower role).

Definition location_slug (location : string) : string :=
  collapse_underscores
    (Py.replace " " "_" (Py.replace "," "_" (Py.replace ", " "_" (Py.lower location)))).

(** The directory name below [ARTIFACTS_DIR]. *)
Definition get_artifacts_path (role location : string) : string :=
  String.append (role_slug role) (String.append "_" (location_slug location)).

(** [ml/train.py], [main], lines 331-333: the directory name below
    [--output-dir] the artifacts are exported to. *)
Definition train_role_slug (role : string) : string :=
  Py.replace " " "_" (Py.lower role).

Definition train_location_slug (location : string) : string :=
  Py.replace "," EmptyString (Py.replace " " "_" (Py.lower location)).

Definition train_artifacts_dir (role location : string) : string :=
  String.append (train_role_slug role) (String.append "_" (train_location_slug location)).

End Slug.

(** ** sklearn scalers

    [StandardScaler] and [MinMaxScaler] with the default arguments, on one
    feature column.  [fit] stores the parameters in the object; [transform]
    and [inverse_transform] are elementwise functions of the stored
    parameters and raise [NotFittedError] on an object that was never
    fitted.  Each operation returns the object next to its value, so that a
    caller's use of one instance is visible as the object it threads.
    sklearn's validation of its input array is not modelled. *)

(** [np.sqrt], which has no rational counterpart, is a parameter. *)
Class Numpy := { np_sqrt : Q -> Q }.

Module Sklearn.

Inductive scaler_kind := StandardScaler | MinMaxScaler.

Inductive params :=
| StandardParams (mean_ var_ scale_ : Q)
| MinMaxParams (data_min_ data_max_ scale_ min_ : Q).

Record scaler := { kind : scaler_kind; fitted : option params }.

Definition new (k : scaler_kind) : scaler := {| kind := k; fitted := None |}.

Definition sum (l : list Q) : Q := fold_left Qplus l 0%Q.
Definition mean (l : list Q) : Q := (sum l / inject_Z (Z.of_nat (length l)))%Q.
Definition minimum (l : list Q) : Q :=
  match l with [] => 0%Q | x :: t => fold_left (fun a b => if Py.ltb b a then b else a) t x end.
Definition maximum (l : list Q) : Q :=
  match l with [] => 0%Q | x :: t => fold_left (fun a b => if Py.ltb a b then b else a) t x end.

(** [_handle_zeros_in_scale]: a zero scale is replaced by 1. *)
Definition handle_zeros (s : Q) : Q := if Qeq_bool s 0 then 1%Q else s.

Definition fit_params `{Numpy} (k : scaler_kind) (X : list Q) : params :=
  match k with
  | StandardScaler =>
      let m := mean X in
      let v := mean (map (fun x => (x - m) * (x - m))%Q X) in
      StandardParams m v (handle_zeros (np_sqrt v))
  | MinMaxScaler =>
      let lo := minimum X in
      let hi := maximum X in
      let sc := (1 / handle_zeros (hi - lo))%Q in
      MinMaxParams lo hi sc (0 - lo * sc)%Q
  end.

Definition fit `{Numpy} (s : scaler) (X : list Q) : scaler :=
  {| kind := kind s; fitted := Some (fit_params (kind s) X) |}.

Definition transform1 (p : params) (x : Q) : Q :=
  match p with
  | StandardParams m _ sc => ((x - m) / sc)%Q
  | MinMaxParams _ _ sc mn => (x * sc + mn)%Q
  end.

Definition inverse1 (p : params) (x : Q) : Q :=
  match p with
  | StandardParams m _ sc => (x * sc + m)%Q
  | MinMaxParams _ _ sc mn => ((x - mn) / sc)%Q
  end.

Definition transform (s : scaler) (X : list Q) : result (list Q * scaler) :=
  match fitted s with
  | None => Raise NotFittedError
  | Some p => Ok (map (transform1 p) X, s)
  end.

Definition inverse_transform (s : scaler) (X : list Q) : result (list Q * scaler) :=
  match fitted s with
  | None => Raise NotFittedError
  | Some p => Ok (map (inverse1 p) X, s)
  end.

End Sklearn.

(** ** [ml/datasets.py] *)

Module Datasets.

(** A row of the weekly series: [week_start] as the ordinal of the date,
    [postings_count] as the value. *)
Record row := { week_start : Z; postings_count : Q }.

Definition DataFrame := list row.

(** [df[value_col].values] *)
Definition values (df : DataFrame) : list Q := map postings_count df.

(** [TimeSeriesDataset]: [X] holds the windows, [y] the targets.
    [window_size] is a length, hence a natural number. *)
Record TimeSeriesDataset := {
  data : list Q;
  window_size : nat;
  X : list (list Q);
  y : list Q
}.

(** [np.array(X).reshape((len(X), window_size, 1))]: every window must
    hold [window_size] values. *)
Definition reshape (X : list (list Q)) (w : nat) : result (list (list Q)) :=
  if forallb (fun r => Nat.eqb (length r) w) X then Ok X else Raise ShapeError.

(** [TimeSeriesDataset.__init__], lines 28-43. *)
Definition init (data : list Q) (window_size : nat) : result TimeSeriesDataset :=
  let w := Z.of_nat window_size in
  let idx := Py.range (Z.of_nat (length data) - w) in
  let X := map (fun i => Py.slice data (Some (Z.of_nat i)) (Some (Z.of_nat i + w))) idx in
  y <-! Py.mapM (fun i => Py.getitem data (Z.of_nat i + w)) idx ;;
  X' <-! reshape X window_size ;;
  Ok {| data := data; window_size := window_size; X := X'; y := y |}.

(** [__len__] *)
Definition len (d : TimeSeriesDataset) : nat := length (X d).

(** [__getitem__] *)
Definition getitem (d : TimeSeriesDataset) (idx : Z) : result (list Q * Q) :=
  x <-! Py.getitem (X d) idx ;;
  t <-! Py.getitem (y d) idx ;;
  Ok (x, t).

(** [data.sort_values(date_col).reset_index(drop=True)]: ascending by
    date.  Rows with equal dates keep their order here; pandas leaves
    their order open. *)
Fixpoint insert_row (r : row) (l : DataFrame) : DataFrame :=
  match l with
  | [] => [r]
  | x :: t => if week_start r <=? week_start x then r :: l else x :: insert_row r t
  end.

Fixpoint sort_values (df : DataFrame) : DataFrame :=
  match df with
  | [] => []
  | r :: t => insert_row r (sort_values t)
  end.

(** [split_time_series], lines 74-88. *)
Definition split_time_series (df : DataFrame) (train_ratio val_ratio test_ratio : Q)
  : result (DataFrame * DataFrame * DataFrame) :=
  if Py.ltb (Qabs (train_ratio + val_ratio + test_ratio - 1)) (1 # 1000000) then
    let df := sort_values df in
    let n := inject_Z (Z.of_nat (length df)) in
    let train_end := Py.int (n * train_ratio) in
    let val_end := Py.int (n * (train_ratio + val_ratio)) in
    let train_df := Py.slice df None (Some train_end) in
    let val_df := Py.slice df (Some train_end) (Some val_end) in
    let test_df := Py.slice df (Some val_end) None in
    Ok (train_df, val_df, test_df)
  else Raise AssertionError.

(** [prepare_datasets], lines 118-143.  [scaler_type] is the string the
    caller passes; [scaler] is the optional pre-fitted scaler. *)
Definition prepare_datasets `{Numpy} (train_df val_df test_df : DataFrame)
    (window_size : nat) (scaler_type : string) (scaler : option Sklearn.scaler)
  : result (TimeSeriesDataset * TimeSeriesDataset * TimeSeriesDataset * Sklearn.scaler) :=
  let train_values := values train_df in
  let val_values := values val_df in
  let test_values := values test_df in
  scaler <-! match scaler with
             | Some s => Ok s
             | None =>
                 s <-! (if String.eqb scaler_type "standard" then Ok (Sklearn.new Sklearn.StandardScaler)
                        else if String.eqb scaler_type "minmax" then Ok (Sklearn.new Sklearn.MinMaxScaler)
                        else Raise UnknownScalerType) ;;
                 Ok (Sklearn.fit s train_values)
             end ;;
  r1 <-! Sklearn.transform scaler train_values ;;
  r2 <-! Sklearn.transform (snd r1) val_values ;;
  r3 <-! Sklearn.transform (snd r2) test_values ;;
  train_dataset <-! init (fst r1) window_size ;;
  val_dataset <-! init (fst r2) window_size ;;
  test_dataset <-! init (fst r3) window_size ;;
  Ok (train_dataset, val_dataset, test_dataset, snd r3).

End Datasets.

(** ** numpy array operations used by the metrics *)

Module Np.

(** [np.diff(a)]: [out[i] = a[i+1] - a[i]]. *)
Fixpoint diff (a : list Q) : list Q :=
  match a with
  | x :: (x' :: _) as t => (x' - x)%Q :: diff t
  | _ => []
  end.

(** [a > 0], elementwise. *)
Definition gt0 (a : list Q) : list bool := map (fun d => Py.gtb d 0) a.

(** [a == b], elementwise on two boolean arrays of one shape. *)
Definition eq_elems (a b : list bool) : list bool :=
  map (fun p => Bool.eqb (fst p) (snd p)) (combine a b).

(** [np.mean] of a boolean array: the fraction of [True]. *)
Definition mean_bool (a : list bool) : Q :=
  (inject_Z (Z.of_nat (count_occ bool_dec a true)) / inject_Z (Z.of_nat (length a)))%Q.

(** [a[mask]]: the entries of [a] where [mask] holds. *)
Definition select {A} (a : list A) (mask : list bool) : list A :=
  map fst (List.filter snd (combine a mask)).

(** [a - b], elementwise. *)
Definition sub (a b : list Q) : list Q := map (fun p => (fst p - snd p)%Q) (combine a b).

(** [a / b], elementwise. *)
Definition div (a b : list Q) : list Q := map (fun p => (fst p / snd p)%Q) (combine a b).

End Np.

(** The dictionary both metric functions return; [None] is NaN. *)
Record metrics := {
  rmse : Q;
  mape : option Q;
  directional_accuracy : option Q
}.

(** ** [ml/evaluate.py] *)

Module Evaluate.

(** [compute_metrics], lines 23-47. *)
Definition compute_metrics `{Numpy} (y_true y_pred : list Q) : metrics :=
  let mask := map (fun v => Py.gtb (Qabs v) (1 # 1000000)) y_true in
  let rmse := np_sqrt (Sklearn.mean (map (fun d => d * d)%Q (Np.sub y_true y_pred))) in
  let mape :=
    if (0 <? count_occ bool_dec mask true)%nat then
      Some (Sklearn.mean (map Qabs (Np.div (Np.sub (Np.select y_true mask) (Np.select y_pred mask))
                                          (Np.select y_true mask))) * 100)%Q
    else None in
  let directional_acc :=
    if (1 <? length y_true)%nat then
      let true_deltas := Np.gt0 (Np.diff y_true) in
      let pred_deltas := Np.gt0 (Np.diff y_pred) in
      Some (Np.mean_bool (Np.eq_elems true_deltas pred_deltas) * 100)%Q
    else None in
  {| rmse := rmse; mape := mape; directional_accuracy := directional_acc |}.

End Evaluate.

(** ** [ml/baselines.py] *)

Module Baselines.

(** [NaiveBaseline]: [last_value] is [None] until [fit] runs. *)
Record NaiveBaseline := { last_value : option Q }.

Definition naive_init : NaiveBaseline := {| last_value := None |}.

(** [fit]: [train_data[-1] if len(train_data) > 0 else 0.0] *)
Definition naive_fit (self : NaiveBaseline) (train_data : list Q) : NaiveBaseline :=
  {| last_value := Some (if (0 <? length train_data)%nat then List.last train_data 0%Q else 0%Q) |}.

(** [np.full(n, v)] *)
Definition np_full (n : Z) (v : Q) : result (list Q) :=
  if n <? 0 then Raise NegativeDimensions else Ok (repeat v (Z.to_nat n)).

(** [predict] *)
Definition naive_predict (self : NaiveBaseline) (horizon : Z) : result (list Q) :=
  match last_value self with
  | None => Raise NotFittedBaseline
  | Some v => np_full horizon v
  end.

(** [compute_baseline_metrics], lines 124-147. *)
Definition compute_baseline_metrics `{Numpy} (y_true y_pred : list Q) : metrics :=
  let mask := map (fun v => Py.gtb (Qabs v) (1 # 1000000)) y_true in
  let rmse := np_sqrt (Sklearn.mean (map (fun d => d * d)%Q (Np.sub y_true y_pred))) in
  let mape :=
    if (0 <? count_occ bool_dec mask true)%nat then
      Some (Sklearn.mean (map Qabs (Np.div (Np.sub (Np.select y_true mask) (Np.select y_pred mask))
                                          (Np.select y_true mask))) * 100)%Q
    else None in
  let directional_acc :=
    if (1 <? length y_true)%nat then
      let true_deltas := Np.gt0 (Np.diff y_true) in
      let pred_deltas := Np.gt0 (Np.diff y_pred) in
      Some (Np.mean_bool (Np.eq_elems true_deltas pred_deltas) * 100)%Q
    else None in
  {| rmse := rmse; mape := mape; directional_accuracy := directional_acc |}.

End Baselines.

(** ** The predictor ([ml/models.py])

    [LSTMForecaster.forward] is PyTorch arithmetic; it enters as a function
    of the mode flag, the weights and the input window.  [lstm false] is the
    inference-mode pass; [lstm true] stands for the pass with dropout
    active, which the service never runs. *)

Class Torch := {
  weights_t : Type;
  lstm : bool -> weights_t -> list Q -> Q
}.

Record LSTMForecaster `{Torch} := {
  weights : weights_t;
  training : bool
}.

(** [model.eval()] *)
Definition eval `{Torch} (m : LSTMForecaster) : LSTMForecaster :=
  {| weights := weights m; training := false |}.

(** [model(X)] for one window *)
Definition forward `{Torch} (m : LSTMForecaster) (x : list Q) : Q :=
  lstm (training m) (weights m) x.

(** ** [ml/export.py]: what an artifact directory holds *)

Record Metadata := {
  md_window_size : Z;               (* [metadata['window_size']] *)
  md_model_type : option string;    (* [metadata.get("model_type", "lstm")] *)
  md_trained_at : option string     (* [metadata.get("trained_at", "unknown")] *)
}.

Record Artifact `{Torch} := {
  art_model : LSTMForecaster;
  art_scaler : Sklearn.scaler;
  art_metadata : Metadata
}.

(** The file system: artifact directories by their name below
    [ARTIFACTS_DIR], history CSVs by their file name below [DATA_DIR]. *)
Record Disk `{Torch} := {
  artifact_dirs : gmap string Artifact;
  csv_files : gmap string Datasets.DataFrame
}.

(** [load_model_artifacts]: rebuilds the model and puts it in inference
    mode. *)
Definition load_model_artifacts `{Torch} (stored : Artifact) : Artifact :=
  {| art_model := eval (art_model stored);
     art_scaler := art_scaler stored;
     art_metadata := art_metadata stored |}.

(** ** [backend/app/services/data_store.py] *)

Module DataStore.

Definition MAX_HISTORY_WEEKS : Z := 104.

(** [get_csv_path]: the file name below [DATA_DIR]. *)
Definition get_csv_path (role location : string) : string :=
  String.append (Slug.role_slug role)
    (String.append "_" (String.append (Slug.location_slug location) ".csv")).

(** [df.tail(n)] *)
Definition tail {A} (df : list A) (n : Z) : list A :=
  if n =? 0 then [] else Py.slice df (Some (- n)) None.

(** [load_series], lines 57-75. *)
Definition load_series `{Torch} (disk : Disk) (role location : string) (max_weeks : option Z)
  : result Datasets.DataFrame :=
  let csv_path := get_csv_path role location in
  match csv_files disk !! csv_path with
  | None => Raise FileNotFoundError
  | Some df =>
      let df := Datasets.sort_values df in
      let df := match max_weeks with
                | Some n => if n =? 0 then df else tail df n
                | None => df
                end in
      Ok df
  end.

Record point := { pt_week_start : Z; pt_value : Q }.

(** [to_time_series_points] *)
Definition to_time_series_points (df : Datasets.DataFrame) : list point :=
  map (fun r => {| pt_week_start := Datasets.week_start r;
                   pt_value := Datasets.postings_count r |}) df.

End DataStore.

(** ** [backend/app/services/forecast.py] *)

Module ForecastService.

Section WithTorch.
Context `{Torch}.

(** The service object: [cache] is [self.cache].  Two ghost fields record
    the calls the properties below speak of: [disk_loads] every artifact directory
    read by [load_model_artifacts], [recursive_calls] the horizon of every
    call of [predict_recursive]. *)
Record t := {
  cache : gmap string Artifact;
  disk_loads : list string;
  recursive_calls : list Z
}.

(** [__init__] *)
Definition init : t := {| cache := ∅; disk_loads := []; recursive_calls := [] |}.

(** Methods run on the service state and may raise. *)
Definition M (A : Type) : Type := t -> result A * t.

Definition ret {A} (a : A) : M A := fun s => (Ok a, s).
Definition raise {A} (e : exn) : M A := fun s => (Raise e, s).
Definition bind {A B} (m : M A) (k : A -> M B) : M B :=
  fun s => match m s with
           | (Ok a, s') => k a s'
           | (Raise e, s') => (Raise e, s')
           end.
Definition lift {A} (r : result A) : M A := fun s => (r, s).

Notation "x <- m ;;; k" := (bind m (fun x => k))
  (at level 100, m at next level, k at level 200, right associativity).

(** [get_model_key]: [f"{role}|{location}"] *)
Definition get_model_key (role location : string) : string :=
  String.append role (String.append "|" location).

(** [load_model], lines 44-65. *)
Definition load_model (disk : Disk) (role location : string) : M Artifact :=
  fun self =>
    let cache_key := get_model_key role location in
    match cache self !! cache_key with
    | Some a => (Ok a, self)
    | None =>
        let artifacts_dir := Slug.get_artifacts_path role location in
        match artifact_dirs disk !! artifacts_dir with
        | None => (Raise FileNotFoundError, self)
        | Some stored =>
            let a := load_model_artifacts stored in
            (Ok a, {| cache := <[cache_key := a]> (cache self);
                      disk_loads := disk_loads self ++ [artifacts_dir];
                      recursive_calls := recursive_calls self |})
        end
    end.

(** One pass of the loop of [predict_recursive], lines 103-114, on the
    pair ([current_sequence], [predictions_scaled]). *)
Definition step (model : LSTMForecaster) (st : list Q * list Q) : list Q * list Q :=
  let '(current_sequence, predictions_scaled) := st in
  let pred_scaled := forward model current_sequence in
  (List.tl current_sequence ++ [pred_scaled], predictions_scaled ++ [pred_scaled]).

(** The loop state after [n] passes. *)
Definition loop (model : LSTMForecaster) (n : nat) (initial_scaled : list Q) : list Q * list Q :=
  Nat.iter n (step model) (initial_scaled, []).

(** [np.maximum(x, 0)] *)
Definition clamp (x : Q) : Q := if Py.ltb x 0 then 0%Q else x.

(** [predict_recursive], lines 88-124. *)
Definition predict_recursive (model : LSTMForecaster) (scaler : Sklearn.scaler)
    (initial_sequence : list Q) (horizon : Z) : result (list Q) :=
  r <-! Sklearn.transform scaler initial_sequence ;;
  let initial_scaled := fst r in
  let scaler := snd r in
  let model := eval model in
  let predictions_scaled := snd (loop model (Z.to_nat horizon) initial_scaled) in
  r' <-! Sklearn.inverse_transform scaler predictions_scaled ;;
  let predictions_raw := fst r' in
  Ok (map clamp predictions_raw).

(** The method call, recorded in [recursive_calls]. *)
Definition call_predict_recursive (model : LSTMForecaster) (scaler : Sklearn.scaler)
    (initial_sequence : list Q) (horizon : Z) : M (list Q) :=
  fun self =>
    (predict_recursive model scaler initial_sequence horizon,
     {| cache := cache self;
        disk_loads := disk_loads self;
        recursive_calls := recursive_calls self ++ [horizon] |}).

Record ModelInfo := { mi_type : string; mi_window : Z; mi_trained_on : string }.

Record ForecastResult := {
  fr_role : string;
  fr_location : string;
  fr_history : list DataStore.point;
  fr_forecast : list DataStore.point;
  fr_model : ModelInfo
}.

(** [dt(2025, 6, 2).date()], as an ordinal. *)
Definition june_2_2025 : Z := 739404.

(** [date + timedelta(weeks=k)] *)
Definition add_weeks (d : Z) (k : Z) : Z := d + 7 * k.

(** The guard of line 176. *)
Definition special_case (role location : string) (horizon : Z) : bool :=
  String.eqb role "Software Engineer" && Py.contains "New York" location && (52 <=? horizon).

(** [forecast], lines 143-224. *)
Definition forecast (disk : Disk) (role location : string) (horizon : Z) : M ForecastResult :=
  a <- load_model disk role location ;;;
  let model := art_model a in
  let scaler := art_scaler a in
  let metadata := art_metadata a in
  df <- lift (DataStore.load_series disk role location (Some DataStore.MAX_HISTORY_WEEKS)) ;;;
  if Z.of_nat (length df) <? md_window_size metadata then raise InsufficientHistory
  else
    let window_size := md_window_size metadata in
    let last_values := Py.slice (Datasets.values df) (Some (- window_size)) None in
    predictions <- call_predict_recursive model scaler last_values horizon ;;;
    last_date <- lift (Py.getitem (map Datasets.week_start df) (-1)) ;;;
    r <- (if special_case role location horizon then
            let start_forecast_date := june_2_2025 in
            let weeks_to_cover := Z.max horizon 56 in
            let actual_weeks := if 52 <? horizon then Z.min weeks_to_cover horizon
                                else weeks_to_cover in
            let forecast_dates :=
              map (fun i => add_weeks start_forecast_date (Z.of_nat i)) (Py.range actual_weeks) in
            if horizon =? 52 then
              predictions <- call_predict_recursive model scaler last_values 56 ;;;
              ret (forecast_dates, predictions)
            else ret (forecast_dates, predictions)
          else
            let forecast_dates :=
              map (fun i => add_weeks last_date (Z.of_nat i + 1)) (Py.range horizon) in
            ret (forecast_dates, predictions)) ;;;
    let '(forecast_dates, predictions) := r in
    let history_points := DataStore.to_time_series_points df in
    let forecast_points :=
      map (fun dp => {| DataStore.pt_week_start := fst dp; DataStore.pt_value := snd dp |})
          (combine forecast_dates predictions) in
    ret {| fr_role := role;
           fr_location := location;
           fr_history := history_points;
           fr_forecast := forecast_points;
           fr_model := {| mi_type := default "lstm"%string (md_model_type metadata);
                          mi_window := md_window_size metadata;
                          mi_trained_on := default "unknown"%string (md_trained_at metadata) |} |}.

End WithTorch.

End ForecastService.

(** ** Instances used to run the definitions on concrete inputs *)

(** A rational stand-in for [np.sqrt]: exact on squares of rationals. *)
Definition sqrt_rational (q : Q) : Q :=
  Z.sqrt (Qnum q * Zpos (Qden q)) # Qden q.

Definition RationalNumpy : Numpy := {| np_sqrt := sqrt_rational |}.

(** A one-weight predictor: the last value of the window plus the weight. *)
Definition DriftTorch : Torch :=
  {| weights_t := Q; lstm := fun _ w x => (List.last x 0 + w)%Q |}.

(** ** The statements the code is compared with *)

Module Spec.

(** The rows of [df] at the positions [i] with [lo <= i < hi], the first
    row being at position [from]. *)
Fixpoint rows_from {A} (from lo hi : Z) (df : list A) : list A :=
  match df with
  | [] => []
  | r :: t =>
      if (lo <=? from) && (from <? hi)
      then r :: rows_from (from + 1) lo hi t
      else rows_from (from + 1) lo hi t
  end.

(** The slice [[lo, hi)] of [df]. *)
Definition rows_between {A} (df : list A) (lo hi : Z) : list A := rows_from 0 lo hi df.


(** Ascending by date. *)
Definition date_le (a b : Datasets.row) : Prop :=
  Datasets.week_start a <= Datasets.week_start b.

End Spec.

(** Three weeks of history, used to run the split. *)
Definition three_weeks : Datasets.DataFrame :=
  [ {| Datasets.week_start := 738000; Datasets.postings_count := 10 |};
    {| Datasets.week_start := 738007; Datasets.postings_count := 20 |};
    {| Datasets.week_start := 738014; Datasets.postings_count := 30 |} ].

(** Ten weeks of history with the counts 1..10, given latest week first. *)
Definition ten_weeks : Datasets.DataFrame :=
  map (fun i => {| Datasets.week_start := 738000 + 7 * Z.of_nat i;
                   Datasets.postings_count := inject_Z (Z.of_nat i) |})
      (rev (seq 1 10)).

(** The scaler a call of [prepare_datasets] returns, if it returns. *)
Definition returned_scaler {A} (r : result (A * Sklearn.scaler)) : option Sklearn.scaler :=
  match r with
  | Ok (_, s) => Some s
  | Raise _ => None
  end.

(** The scaler class a [scaler_type] string names. *)
Definition kind_of_type (scaler_type : string) : option Sklearn.scaler_kind :=
  if String.eqb scaler_type "standard" then Some Sklearn.StandardScaler
  else if String.eqb scaler_type "minmax" then Some Sklearn.MinMaxScaler
  else None.

(** The directional-accuracy metric, by index. *)
Module DirectionSpec.

(** [y[i+1] - y[i]] *)
Definition delta (y : list Q) (i : nat) : Q := (nth (S i) y 0 - nth i y 0)%Q.

(** The sign of a change: 1, 0 or -1. *)
Definition sign (x : Q) : Z :=
  if Py.ltb 0 x then 1 else if Py.ltb x 0 then -1 else 0.

(** The share, in percent, of the consecutive pairs [i] that [agree]
    selects; undefined below two points. *)
Definition percent_of_pairs (agree : nat -> bool) (y_true : list Q) : option Q :=
  if (length y_true <? 2)%nat then None
  else
    let pairs := seq 0 (length y_true - 1) in
    Some (inject_Z (Z.of_nat (length (List.filter agree pairs)))
          / inject_Z (Z.of_nat (length pairs)) * 100)%Q.

(** As the specification words it: the two changes have the same sign. *)
Definition sign_match_percent (y_true y_pred : list Q) : option Q :=
  percent_of_pairs (fun i => sign (delta y_true i) =? sign (delta y_pred i)) y_true.

(** As the code computes it: the two changes are both rises, or neither is. *)
Definition rise_match_percent (y_true y_pred : list Q) : option Q :=
  percent_of_pairs
    (fun i => Bool.eqb (Py.gtb (delta y_true i) 0) (Py.gtb (delta y_pred i) 0)) y_true.

End DirectionSpec.

(** Two metric values are the same number, or both NaN. *)
Definition metric_eq (a b : option Q) : Prop :=
  match a, b with
  | Some x, Some y => (x == y)%Q
  | None, None => True
  | _, _ => False
  end.

(** A [NaiveBaseline] object after the calls [fit(d)] for the [d] of
    [fits], in order, since its construction. *)
Definition naive_after (fits : list (list Q)) : Baselines.NaiveBaseline :=
  fold_left Baselines.naive_fit fits Baselines.naive_init.

(** The window [predict_recursive] feeds the model at pass [k] (from 0):
    [current_sequence] after [k] passes of the loop. *)
Definition input_window `{Torch} (model : LSTMForecaster) (p : Sklearn.params)
    (initial_sequence : list Q) (k : nat) : list Q :=
  fst (ForecastService.loop (eval model) k (map (Sklearn.transform1 p) initial_sequence)).

(** A drifting model and a min-max scaler fitted on [three_weeks]. *)
Definition drift_model : @LSTMForecaster DriftTorch :=
  @Build_LSTMForecaster DriftTorch (1 # 10) true.

Definition fitted_minmax : Sklearn.scaler :=
  @Sklearn.fit RationalNumpy (Sklearn.new Sklearn.MinMaxScaler) (Datasets.values three_weeks).




(** A disk with one trained model, window 2, and three weeks of history,
    for "Software Engineer" in "New York, NY". *)
Definition new_york_artifact : @Artifact DriftTorch :=
  {| art_model := drift_model;
     art_scaler := fitted_minmax;
     art_metadata := {| md_window_size := 2;
                        md_model_type := Some "lstm"%string;
                        md_trained_at := None |} |}.

Definition new_york_disk : @Disk DriftTorch :=
  {| artifact_dirs := {[ "software_engineer_new_york_ny"%string := new_york_artifact ]};
     csv_files := {[ "software_engineer_new_york_ny.csv"%string := three_weeks ]} |}.

(** The same model with a window of 5, longer than the history. *)
Definition wide_window_disk : @Disk DriftTorch :=
  {| artifact_dirs :=
       {[ "software_engineer_new_york_ny"%string :=
            {| art_model := drift_model;
               art_scaler := fitted_minmax;
               art_metadata := {| md_window_size := 5;
                                  md_model_type := Some "lstm"%string;
                                  md_trained_at := None |} |} ]};
     csv_files := {[ "software_engineer_new_york_ny.csv"%string := three_weeks ]} |}.


(** The disk after training for "Data Scientist" in "Austin,TX": the
    artifact sits in the directory [ml/train.py] exports to. *)
Definition austin_disk : @Disk DriftTorch :=
  {| artifact_dirs := {[ Slug.train_artifacts_dir "Data Scientist" "Austin,TX" := new_york_artifact ]};
     csv_files := ∅ |}.

(** ** More of [backend/app/services/data_store.py] *)

(** [DataStore.get_latest_date], lines 78-85: the [FileNotFoundError] of
    [load_series] is swallowed, any other exception passes. *)
Definition get_latest_date `{Torch} (disk : Disk) (role location : string) : result (option Z) :=
  match DataStore.load_series disk role location (Some 1) with
  | Ok df =>
      if (0 <? length df)%nat
      then d <-! Py.getitem (map Datasets.week_start df) (-1) ;; Ok (Some d)
      else Ok None
  | Raise FileNotFoundError => Ok None
  | Raise e => Raise e
  end.

(** Every character of [s] satisfies [P]. *)
Fixpoint string_forall (P : ascii -> Prop) (s : string) : Prop :=
  match s with
  | EmptyString => True
  | String c s' => P c /\ string_forall P s'
  end.

(** ** More of [ml/baselines.py] *)

(** A numpy float that may be NaN. *)
Inductive npfloat := Finite (q : Q) | NaN.

(** [np.mean]: NaN on an empty array. *)
Definition np_mean (a : list Q) : npfloat :=
  match a with
  | [] => NaN
  | _ => Finite (Sklearn.mean a)
  end.

Module MovingAverage.

(** [MovingAverageBaseline]: [mean_value] is [None] until [fit] runs. *)
Record MovingAverageBaseline := { window : Z; mean_value : option npfloat }.

(** [__init__] *)
Definition init (window : Z) : MovingAverageBaseline :=
  {| window := window; mean_value := None |}.

(** [fit], lines 44-47. *)
Definition fit (self : MovingAverageBaseline) (train_data : list Q) : MovingAverageBaseline :=
  {| window := window self;
     mean_value :=
       Some (if Z.of_nat (length train_data) <? window self
             then (if (0 <? length train_data)%nat then np_mean train_data else Finite 0)
             else np_mean (Py.slice train_data (Some (- window self)) None)) |}.

(** [predict], lines 51-53. *)
Definition predict (self : MovingAverageBaseline) (horizon : Z) : result (list npfloat) :=
  match mean_value self with
  | None => Raise NotFittedBaseline
  | Some v => if horizon <? 0 then Raise NegativeDimensions
              else Ok (repeat v (Z.to_nat horizon))
  end.

End MovingAverage.

(** [statsmodels]' ARIMA, when it can be imported: fitting and forecasting
    are its own; [None] stands for an exception raised inside it. *)
Class Statsmodels := {
  arima_result : Type;
  arima_fit : list Q -> Z * Z * Z -> option arima_result;
  arima_forecast : arima_result -> Z -> option (list Q)
}.

Module Arima.
Section WithStatsmodels.
Context `{Statsmodels}.

(** What the two methods can raise. *)
Inductive error :=
| RuntimeError         (* statsmodels not installed *)
| ValueError           (* [np.full] with a negative length *).

(** [ARIMABaseline]; [is_available] records whether the import succeeded. *)
Record ARIMABaseline := {
  order : Z * Z * Z;
  fitted_model : option arima_result;
  fallback_value : Q;
  is_available : bool
}.

(** [__init__], lines 66-81. *)
Definition init (order : Z * Z * Z) (import_succeeds : bool) : ARIMABaseline :=
  {| order := order; fitted_model := None; fallback_value := 0; is_available := import_succeeds |}.

(** [fit], lines 83-94. *)
Definition fit (self : ARIMABaseline) (train_data : list Q) : error + ARIMABaseline :=
  if negb (is_available self) then inl RuntimeError
  else match arima_fit train_data (order self) with
       | Some fitted =>
           inr {| order := order self; fitted_model := Some fitted;
                  fallback_value := fallback_value self; is_available := is_available self |}
       | None =>
           inr {| order := order self; fitted_model := None;
                  fallback_value :=
                    if (0 <? length train_data)%nat then List.last train_data 0%Q else 0%Q;
                  is_available := is_available self |}
       end.

(** [np.full(horizon, self.fallback_value)] *)
Definition full (horizon : Z) (v : Q) : error + list Q :=
  if horizon <? 0 then inl ValueError else inr (repeat v (Z.to_nat horizon)).

(** [predict], lines 96-110. *)
Definition predict (self : ARIMABaseline) (horizon : Z) : error + list Q :=
  if negb (is_available self) then inl RuntimeError
  else match fitted_model self with
       | None => full horizon (fallback_value self)
       | Some fitted =>
           match arima_forecast fitted horizon with
           | Some forecast => inr forecast
           | None => full horizon (fallback_value self)
           end
       end.

End WithStatsmodels.
End Arima.

(** A stand-in for statsmodels: fitting fails on fewer than two points,
    forecasting repeats the mean and fails beyond 100 steps. *)
Definition ToyStatsmodels : Statsmodels :=
  {| arima_result := Q;
     arima_fit := fun train _ => if (length train <? 2)%nat then None else Some (Sklearn.mean train);
     arima_forecast := fun m h => if 100 <? h then None else Some (repeat m (Z.to_nat h)) |}.

(** ** The training loop of [ml/train.py]

    The optimisation itself is PyTorch's.  [train_state] is everything an
    epoch reads and writes (weights, optimizer state, the shuffling random
    state); [train_batches] and [val_batches] run the batches of one pass
    and give the loss of each batch. *)

Class Trainer := {
  train_state : Type;
  train_batches : train_state -> train_state * list Q;
  val_batches : train_state -> train_state * list Q
}.

Module Train.
Section WithTrainer.
Context `{Trainer}.

(** [total_loss / n_batches if n_batches > 0 else 0.0] *)
Definition average (losses : list Q) : Q :=
  if (0 <? length losses)%nat
  then (Sklearn.sum losses / inject_Z (Z.of_nat (length losses)))%Q
  else 0%Q.

(** [train_epoch], lines 26-45. *)
Definition train_epoch (st : train_state) : train_state * Q :=
  let '(st', losses) := train_batches st in (st', average losses).

(** [validate], lines 48-64. *)
Definition validate (st : train_state) : train_state * Q :=
  let '(st', losses) := val_batches st in (st', average losses).

(** The variables of the loop of [main], lines 191-216; [best_val_loss] is
    [None] while it is [float('inf')]. *)
Record loop_state := {
  model_state : train_state;
  best_val_loss : option Q;
  patience_counter : nat;
  train_losses : list Q;
  val_losses : list Q
}.

Definition patience : nat := 10.

Definition start (st : train_state) : loop_state :=
  {| model_state := st; best_val_loss := None; patience_counter := 0;
     train_losses := []; val_losses := [] |}.

(** [val_loss < best_val_loss] *)
Definition improves (val_loss : Q) (best : option Q) : bool :=
  match best with
  | None => true
  | Some b => Py.ltb val_loss b
  end.

(** The [for epoch in range(args.epochs)] loop with its [break]. *)
Fixpoint loop (epochs : nat) (s : loop_state) : loop_state :=
  match epochs with
  | O => s
  | S n =>
      let '(st1, train_loss) := train_epoch (model_state s) in
      let '(st2, val_loss) := validate st1 in
      let train_losses := train_losses s ++ [train_loss] in
      let val_losses := val_losses s ++ [val_loss] in
      if improves val_loss (best_val_loss s) then
        loop n {| model_state := st2; best_val_loss := Some val_loss; patience_counter := 0;
                  train_losses := train_losses; val_losses := val_losses |}
      else
        let patience_counter := (patience_counter s + 1)%nat in
        let s' := {| model_state := st2; best_val_loss := best_val_loss s;
                     patience_counter := patience_counter;
                     train_losses := train_losses; val_losses := val_losses |} in
        if (patience <=? patience_counter)%nat then s' else loop n s'
  end.

(** The training part of [main]: [args.epochs] is an integer. *)
Definition train (epochs : Z) (st : train_state) : loop_state :=
  loop (Z.to_nat epochs) (start st).


End WithTrainer.
End Train.

(** A trainer whose state counts the epochs and whose validation set is
    empty: no validation batch is ever run. *)
Definition NoValidationTrainer : Trainer :=
  {| train_state := nat;
     train_batches := fun n => (S n, [1 / inject_Z (Z.of_nat (S n))]%Q);
     val_batches := fun n => (n, []) |}.




(** ** [ml/export.py]: writing an artifact directory

    [export_model], lines 36-78, writes the weights, the pickled scaler and
    the metadata below [output_dir], replacing what was there.  [now] is
    [datetime.now().isoformat()].  The metadata keys that no code reads
    back (role, location, model_config, train_date_range, metrics) are not
    part of [Metadata]. *)
Definition export_model `{Torch} (model : LSTMForecaster) (scaler : Sklearn.scaler)
    (window_size : Z) (now : string) (output_dir : string) (disk : Disk) : Disk :=
  {| artifact_dirs :=
       <[output_dir := {| art_model := model;
                          art_scaler := scaler;
                          art_metadata := {| md_window_size := window_size;
                                             md_model_type := Some "lstm"%string;
                                             md_trained_at := Some now |} |}]>
         (artifact_dirs disk);
     csv_files := csv_files disk |}.

(** The export step of [main] in [ml/train.py], lines 331-344, when
    [--output-dir] is the service's [ARTIFACTS_DIR]. *)
Definition train_export `{Torch} (role location : string) (model : LSTMForecaster)
    (scaler : Sklearn.scaler) (window : Z) (now : string) (disk : Disk) : Disk :=
  export_model model scaler window now (Slug.train_artifacts_dir role location) disk.

(** ** [backend/app/main.py]: the two data endpoints *)

Module Api.

(** A response: the body of a 200, or the status of an error. *)
Inductive response (A : Type) : Type :=
| Http200 (body : A)
| HttpError (status : Z).
Arguments Http200 {A} body.
Arguments HttpError {A} status.

(** The [except] clauses of both endpoints, in order: [FileNotFoundError]
    gives 404, [ValueError] (only [get_forecast] has the clause) gives 400,
    any other exception 500.  sklearn's [NotFittedError] and numpy's shape
    errors are [ValueError]s. *)
Definition is_value_error (e : exn) : bool :=
  match e with
  | InsufficientHistory | NotFittedError | UnknownScalerType
  | NotFittedBaseline | ShapeError | NegativeDimensions => true
  | AssertionError | FileNotFoundError | IndexError => false
  end.

Definition forecast_status (e : exn) : Z :=
  match e with
  | FileNotFoundError => 404
  | _ => if is_value_error e then 400 else 500
  end.

Definition series_status (e : exn) : Z :=
  match e with
  | FileNotFoundError => 404
  | _ => 500
  end.

Record SeriesResponse := {
  sr_role : string;
  sr_location : string;
  sr_series : list DataStore.point
}.

(** [get_series], lines 83-95: [max_weeks or settings.MAX_HISTORY_WEEKS]. *)
Definition get_series `{Torch} (disk : Disk) (role location : string) (max_weeks : option Z)
  : response SeriesResponse :=
  let limit := match max_weeks with
               | Some n => if n =? 0 then DataStore.MAX_HISTORY_WEEKS else n
               | None => DataStore.MAX_HISTORY_WEEKS
               end in
  match DataStore.load_series disk role location (Some limit) with
  | Ok df => Http200 {| sr_role := role; sr_location := location;
                        sr_series := DataStore.to_time_series_points df |}
  | Raise e => HttpError (series_status e)
  end.

(** [get_forecast], lines 99-117: the query validation [ge=1, le=52]
    answers 422 before the body runs; a missing [horizon] is
    [settings.DEFAULT_HORIZON]. *)
Definition DEFAULT_HORIZON : Z := 8.

Definition get_forecast `{Torch} (disk : Disk) (role location : string) (horizon : option Z)
    (self : ForecastService.t)
  : response ForecastService.ForecastResult * ForecastService.t :=
  let horizon := default DEFAULT_HORIZON horizon in
  if (horizon <? 1) || (52 <? horizon) then (HttpError 422, self)
  else match ForecastService.forecast disk role location horizon self with
       | (Ok result, self') => (Http200 result, self')
       | (Raise e, self') => (HttpError (forecast_status e), self')
       end.

End Api.

(** * Properties *)

(** ** Python slices and indexing *)

Lemma slice_nat {A} (l : list A) (a b : nat) :
  (a <= b)%nat ->
  Py.slice l (Some (Z.of_nat a)) (Some (Z.of_nat b)) = firstn (b - a) (skipn a l).
Proof.
  intros Hab. unfold Py.slice, Py.resolve.
  destruct (Z.ltb_spec (Z.of_nat a) 0) as [?|_]; [lia|].
  destruct (Z.ltb_spec (Z.of_nat b) 0) as [?|_]; [lia|].
  destruct (Nat.le_gt_cases (length l) a) as [Hla|Hla].
  - rewrite !skipn_all2 by lia. now rewrite !firstn_nil.
  - replace (Z.to_nat (Z.min (Z.of_nat (length l)) (Z.of_nat a))) with a by lia.
    destruct (Nat.le_gt_cases b (length l)) as [Hbl|Hbl].
    + now replace (Z.to_nat (Z.min (Z.of_nat (length l)) (Z.of_nat b))) with b by lia.
    + replace (Z.to_nat (Z.min (Z.of_nat (length l)) (Z.of_nat b))) with (length l) by lia.
      rewrite !firstn_all2 by (rewrite length_skipn; lia). reflexivity.
Qed.

Lemma slice_to {A} (l : list A) (b : nat) :
  Py.slice l None (Some (Z.of_nat b)) = firstn b l.
Proof.
  unfold Py.slice, Py.resolve.
  destruct (Z.ltb_spec (Z.of_nat b) 0) as [?|_]; [lia|].
  rewrite skipn_O, Nat.sub_0_r.
  destruct (Nat.le_gt_cases b (length l)) as [Hbl|Hbl].
  - now replace (Z.to_nat (Z.min (Z.of_nat (length l)) (Z.of_nat b))) with b by lia.
  - replace (Z.to_nat (Z.min (Z.of_nat (length l)) (Z.of_nat b))) with (length l) by lia.
    rewrite !firstn_all2 by lia. reflexivity.
Qed.

Lemma slice_from {A} (l : list A) (a : nat) :
  Py.slice l (Some (Z.of_nat a)) None = skipn a l.
Proof.
  unfold Py.slice, Py.resolve.
  destruct (Z.ltb_spec (Z.of_nat a) 0) as [?|_]; [lia|].
  destruct (Nat.le_gt_cases (length l) a) as [Hla|Hla].
  - rewrite !skipn_all2 by lia. now rewrite firstn_nil.
  - replace (Z.to_nat (Z.min (Z.of_nat (length l)) (Z.of_nat a))) with a by lia.
    apply firstn_all2. rewrite length_skipn. lia.
Qed.

Lemma getitem_nat {A} (l : list A) (i : nat) (d : A) :
  Py.getitem l (Z.of_nat i) = if (i <? length l)%nat then Ok (nth i l d) else Raise IndexError.
Proof.
  unfold Py.getitem.
  destruct (Z.ltb_spec (Z.of_nat i) 0) as [?|_]; [lia|].
  destruct (Nat.ltb_spec i (length l)) as [Hi|Hi].
  - destruct (Z.ltb_spec (Z.of_nat i) 0) as [?|_]; [lia|].
    destruct (Z.leb_spec (Z.of_nat (length l)) (Z.of_nat i)) as [?|_]; [lia|].
    simpl. rewrite Nat2Z.id.
    now rewrite (nth_error_nth' l d Hi).
  - destruct (Z.leb_spec (Z.of_nat (length l)) (Z.of_nat i)) as [_|?]; [|lia].
    now rewrite orb_true_r.
Qed.

Lemma mapM_ok {A B} (f : A -> result B) (g : A -> B) (l : list A) :
  (forall a, In a l -> f a = Ok (g a)) -> Py.mapM f l = Ok (map g l).
Proof.
  induction l as [|a t IH]; intros Hf; simpl; [reflexivity|].
  rewrite (Hf a) by now left. simpl.
  rewrite IH by (intros; apply Hf; now right). reflexivity.
Qed.

(** ** [TimeSeriesDataset] *)

Lemma range_sub (L w : nat) :
  Py.range (Z.of_nat L - Z.of_nat w) = seq 0 (L - w).
Proof. unfold Py.range. f_equal. lia. Qed.

Lemma init_eq (data : list Q) (w : nat) :
  Datasets.init data w =
  Ok {| Datasets.data := data;
        Datasets.window_size := w;
        Datasets.X := map (fun i => firstn w (skipn i data)) (seq 0 (length data - w));
        Datasets.y := map (fun i => nth (i + w) data 0%Q) (seq 0 (length data - w)) |}.
Proof.
  unfold Datasets.init. rewrite range_sub.
  rewrite (mapM_ok _ (fun i => nth (i + w) data 0%Q)).
  2:{ intros i Hi. apply in_seq in Hi.
      replace (Z.of_nat i + Z.of_nat w) with (Z.of_nat (i + w)) by lia.
      rewrite (getitem_nat data (i + w) 0%Q).
      destruct (Nat.ltb_spec (i + w) (length data)); [reflexivity | lia]. }
  simpl rbind.
  assert (HX : map (fun i => Py.slice data (Some (Z.of_nat i)) (Some (Z.of_nat i + Z.of_nat w)))
                   (seq 0 (length data - w))
               = map (fun i => firstn w (skipn i data)) (seq 0 (length data - w))).
  { apply map_ext. intros i.
    replace (Z.of_nat i + Z.of_nat w) with (Z.of_nat (i + w)) by lia.
    rewrite slice_nat by lia. f_equal. lia. }
  rewrite HX. unfold Datasets.reshape.
  assert (Hall : forallb (fun r : list Q => Nat.eqb (length r) w)
                   (map (fun i => firstn w (skipn i data)) (seq 0 (length data - w))) = true).
  { apply forallb_forall. intros r Hr. apply in_map_iff in Hr as (i & <- & Hi).
    apply in_seq in Hi. apply Nat.eqb_eq.
    rewrite length_firstn, length_skipn. lia. }
  rewrite Hall. reflexivity.
Qed.

(** C4.  For data of length L and window size w the builder returns (it does
    not raise) a dataset of exactly max(L - w, 0) samples; sample i is
    (data[i:i+w], data[i+w]) and any further index is out of range; when
    L <= w the sample set is empty. *)
Theorem window_builder_samples (data : list Q) (w : nat) :
  exists d, Datasets.init data w = Ok d
    /\ Z.of_nat (Datasets.len d) = Z.max (Z.of_nat (length data) - Z.of_nat w) 0
    /\ length (Datasets.y d) = Datasets.len d
    /\ (forall i : nat,
          Datasets.getitem d (Z.of_nat i) =
          if (i <? Datasets.len d)%nat
          then Ok (firstn w (skipn i data), nth (i + w) data 0%Q)
          else Raise IndexError)
    /\ ((length data <= w)%nat -> Datasets.X d = [] /\ Datasets.y d = []).
Proof.
  eexists. split; [apply init_eq|].
  unfold Datasets.len, Datasets.getitem. simpl.
  rewrite !length_map, !length_seq.
  split; [lia|]. split; [reflexivity|]. split.
  - intros i.
    rewrite (getitem_nat _ i []), (getitem_nat _ i 0%Q).
    rewrite !length_map, !length_seq.
    destruct (Nat.ltb_spec i (length data - w)) as [Hi|Hi]; [|reflexivity].
    simpl.
    rewrite (nth_indep _ [] (firstn w (skipn 0 data))) by (rewrite length_map, length_seq; lia).
    rewrite (map_nth (fun i => firstn w (skipn i data)) _ 0%nat i).
    rewrite (nth_indep _ 0%Q (nth (0 + w) data 0%Q)) by (rewrite length_map, length_seq; lia).
    rewrite (map_nth (fun i => nth (i + w) data 0%Q) _ 0%nat i).
    rewrite seq_nth by lia. reflexivity.
  - intros Hle. replace (length data - w)%nat with 0%nat by lia. now simpl.
Qed.

Example window_builder_example :
  Datasets.init [1; 2; 3; 4; 5; 6; 7; 8; 9; 10]%Q 3 =
  Ok {| Datasets.data := [1; 2; 3; 4; 5; 6; 7; 8; 9; 10]%Q;
        Datasets.window_size := 3;
        Datasets.X := [[1; 2; 3]; [2; 3; 4]; [3; 4; 5]; [4; 5; 6]; [5; 6; 7]; [6; 7; 8]; [7; 8; 9]]%Q;
        Datasets.y := [4; 5; 6; 7; 8; 9; 10]%Q |}.
Proof. reflexivity. Qed.

(** ** [split_time_series] *)

Lemma ltb_lt (x y : Q) : Py.ltb x y = true <-> (x < y)%Q.
Proof.
  unfold Py.ltb. rewrite negb_true_iff. split.
  - intros Hb. apply Qnot_le_lt. intros Hle.
    apply Qle_bool_iff in Hle. congruence.
  - intros Hlt. destruct (Qle_bool y x) eqn:E; [|reflexivity].
    apply Qle_bool_iff in E. exfalso. exact (Qlt_not_le _ _ Hlt E).
Qed.

Lemma int_floor (q : Q) : (0 <= q)%Q -> Py.int q = Qfloor q.
Proof.
  destruct q as [n d]. unfold Qle, Py.int, Qfloor. simpl. intros Hn.
  apply Z.quot_div_nonneg; lia.
Qed.

Lemma floor_nonneg (q : Q) : (0 <= q)%Q -> 0 <= Qfloor q.
Proof. intros Hq. change 0 with (Qfloor 0). now apply Qfloor_resp_le. Qed.

Lemma insert_row_perm (r : Datasets.row) (l : Datasets.DataFrame) :
  Permutation (r :: l) (Datasets.insert_row r l).
Proof.
  induction l as [|x t IH]; simpl; [reflexivity|].
  destruct (Datasets.week_start r <=? Datasets.week_start x); [reflexivity|].
  rewrite perm_swap. now apply perm_skip.
Qed.

Lemma sort_values_perm (df : Datasets.DataFrame) : Permutation df (Datasets.sort_values df).
Proof.
  induction df as [|r t IH]; simpl; [reflexivity|].
  rewrite <- insert_row_perm. now apply perm_skip.
Qed.

Lemma sort_values_length (df : Datasets.DataFrame) :
  length (Datasets.sort_values df) = length df.
Proof. symmetry. apply Permutation_length, sort_values_perm. Qed.

Lemma insert_row_sorted (r : Datasets.row) (l : Datasets.DataFrame) :
  Sorted Spec.date_le l -> Sorted Spec.date_le (Datasets.insert_row r l).
Proof.
  induction l as [|x t IH]; simpl; intros Hs.
  - repeat constructor.
  - destruct (Z.leb_spec (Datasets.week_start r) (Datasets.week_start x)) as [Hle|Hgt].
    + constructor; [assumption|]. constructor. exact Hle.
    + inversion Hs as [|? ? Hst Hhd]; subst.
      constructor; [now apply IH|].
      destruct t as [|x' t']; simpl.
      * constructor. unfold Spec.date_le. lia.
      * destruct (Datasets.week_start r <=? Datasets.week_start x').
        -- constructor. unfold Spec.date_le. lia.
        -- constructor. now inversion Hhd.
Qed.

Lemma sort_values_sorted (df : Datasets.DataFrame) :
  Sorted Spec.date_le (Datasets.sort_values df).
Proof.
  induction df as [|r t IH]; simpl; [constructor|]. now apply insert_row_sorted.
Qed.

Lemma rows_from_eq {A} (df : list A) (from lo hi : Z) :
  Spec.rows_from from lo hi df =
  firstn (Z.to_nat (hi - Z.max lo from)) (skipn (Z.to_nat (lo - from)) df).
Proof.
  revert from. induction df as [|r t IH]; intros from; simpl.
  - now rewrite skipn_nil, firstn_nil.
  - destruct (Z.leb_spec lo from) as [Hlo|Hlo]; simpl.
    + replace (Z.to_nat (lo - from)) with 0%nat by lia. rewrite skipn_O.
      destruct (Z.ltb_spec from hi) as [Hhi|Hhi].
      * rewrite IH.
        replace (Z.to_nat (lo - (from + 1))) with 0%nat by lia. rewrite skipn_O.
        replace (Z.to_nat (hi - Z.max lo from)) with (S (Z.to_nat (hi - Z.max lo (from + 1)))) by lia.
        reflexivity.
      * rewrite IH.
        replace (Z.to_nat (hi - Z.max lo (from + 1))) with 0%nat by lia.
        replace (Z.to_nat (hi - Z.max lo from)) with 0%nat by lia.
        reflexivity.
    + rewrite IH.
      replace (Z.to_nat (lo - from)) with (S (Z.to_nat (lo - (from + 1)))) by lia.
      replace (Z.max lo (from + 1)) with (Z.max lo from) by lia.
      reflexivity.
Qed.

Lemma rows_between_eq {A} (df : list A) (lo hi : Z) :
  0 <= lo ->
  Spec.rows_between df lo hi = firstn (Z.to_nat hi - Z.to_nat lo) (skipn (Z.to_nat lo) df).
Proof.
  intros Hlo. unfold Spec.rows_between. rewrite rows_from_eq.
  f_equal; [lia | f_equal; lia].
Qed.

Lemma split_cuts (df : Datasets.DataFrame) (r_train r_val : Q) :
  (0 <= r_train)%Q -> (0 <= r_val)%Q ->
  let n := inject_Z (Z.of_nat (length (Datasets.sort_values df))) in
  Py.int (n * r_train) = Qfloor (n * r_train)
  /\ Py.int (n * (r_train + r_val)) = Qfloor (n * (r_train + r_val))
  /\ 0 <= Qfloor (n * r_train) <= Qfloor (n * (r_train + r_val)).
Proof.
  intros Ht Hv n.
  assert (Hn : (0 <= n)%Q).
  { unfold n, Qle. simpl. lia. }
  assert (Htv : (0 <= r_train + r_val)%Q).
  { rewrite <- (Qplus_0_r 0). now apply Qplus_le_compat. }
  assert (H1 : (0 <= n * r_train)%Q) by now apply Qmult_le_0_compat.
  assert (H2 : (0 <= n * (r_train + r_val))%Q) by now apply Qmult_le_0_compat.
  assert (H3 : (n * r_train <= n * (r_train + r_val))%Q).
  { rewrite (Qmult_comm n r_train), (Qmult_comm n (r_train + r_val)).
    apply Qmult_le_compat_r; [|exact Hn].
    rewrite <- (Qplus_0_r r_train) at 1. apply Qplus_le_compat; [apply Qle_refl | exact Hv]. }
  repeat split.
  - now apply int_floor.
  - now apply int_floor.
  - now apply floor_nonneg.
  - now apply Qfloor_resp_le.
Qed.

Lemma slices_of_cuts {A} (l : list A) (a b : Z) :
  0 <= a <= b ->
  Py.slice l None (Some a) = Spec.rows_between l 0 a
  /\ Py.slice l (Some a) (Some b) = Spec.rows_between l a b
  /\ Py.slice l (Some b) None = Spec.rows_between l b (Z.of_nat (length l))
  /\ Spec.rows_between l 0 a ++ Spec.rows_between l a b
       ++ Spec.rows_between l b (Z.of_nat (length l)) = l.
Proof.
  intros Hab.
  destruct (Z_of_nat_complete a) as [na ->]; [lia|].
  destruct (Z_of_nat_complete b) as [nb ->]; [lia|].
  rewrite !rows_between_eq by lia.
  rewrite slice_to, slice_from, slice_nat by lia.
  change (Z.to_nat 0) with 0%nat. rewrite skipn_O, Nat.sub_0_r, !Nat2Z.id.
  assert (Hlast : firstn (length l - nb) (skipn nb l) = skipn nb l).
  { apply firstn_all2. rewrite length_skipn. lia. }
  rewrite Hlast. repeat split.
  replace (skipn nb l) with (skipn (nb - na) (skipn na l)).
  - now rewrite firstn_skipn, firstn_skipn.
  - rewrite skipn_skipn. f_equal. lia.
Qed.



Example split_ten_weeks :
  Datasets.split_time_series ten_weeks (7 # 10) (15 # 100) (15 # 100)
  = Ok (firstn 7 (rev ten_weeks), firstn 1 (skipn 7 (rev ten_weeks)), skipn 8 (rev ten_weeks)).
Proof. vm_compute. reflexivity. Qed.


(** ** [prepare_datasets] *)

Section PrepareDatasets.
Context `{Numpy}.



End PrepareDatasets.

Example prepare_datasets_no_leakage :
  returned_scaler
    (@Datasets.prepare_datasets RationalNumpy three_weeks ten_weeks ten_weeks 2 "minmax" None)
  = Some {| Sklearn.kind := Sklearn.MinMaxScaler;
            Sklearn.fitted := Some (Sklearn.MinMaxParams 10 30 (1 / (30 - 10)) (0 - 10 * (1 / (30 - 10)))) |}.
Proof. reflexivity. Qed.

(** ** Directional accuracy *)

Lemma delta_cons (x : Q) (y : list Q) (i : nat) :
  DirectionSpec.delta (x :: y) (S i) = DirectionSpec.delta y i.
Proof. reflexivity. Qed.

Lemma diff_by_index (y : list Q) :
  Np.diff y = map (DirectionSpec.delta y) (seq 0 (length y - 1)).
Proof.
  induction y as [|x [|x' t] IH]; try reflexivity.
  change (Np.diff (x :: x' :: t)) with ((x' - x)%Q :: Np.diff (x' :: t)).
  rewrite IH.
  replace (length (x :: x' :: t) - 1)%nat with (S (length (x' :: t) - 1)) by (simpl; lia).
  rewrite <- cons_seq, <- seq_shift. cbn [map]. rewrite map_map.
  reflexivity.
Qed.

Lemma combine_maps {A B C} (f : A -> B) (g : A -> C) (l : list A) :
  combine (map f l) (map g l) = map (fun a => (f a, g a)) l.
Proof. induction l as [|a t IH]; simpl; [reflexivity | now rewrite IH]. Qed.

Lemma count_true_map {A} (P : A -> bool) (l : list A) :
  count_occ bool_dec (map P l) true = length (List.filter P l).
Proof.
  induction l as [|a t IH]; simpl; [reflexivity|].
  destruct (P a); simpl; [now rewrite IH | exact IH].
Qed.

Lemma directional_by_index (y_true y_pred : list Q) :
  length y_true = length y_pred ->
  (if (1 <? length y_true)%nat
   then Some (Np.mean_bool (Np.eq_elems (Np.gt0 (Np.diff y_true)) (Np.gt0 (Np.diff y_pred))) * 100)%Q
   else None)
  = DirectionSpec.rise_match_percent y_true y_pred.
Proof.
  intros Hlen.
  unfold DirectionSpec.rise_match_percent, DirectionSpec.percent_of_pairs.
  destruct (Nat.ltb_spec 1 (length y_true)) as [H1|H1];
    destruct (Nat.ltb_spec (length y_true) 2) as [H2|H2]; try lia; [|reflexivity].
  cbv zeta. unfold Np.mean_bool, Np.eq_elems, Np.gt0.
  rewrite !diff_by_index, <- Hlen, !map_map, combine_maps, map_map. cbn [fst snd].
  rewrite count_true_map, length_map. reflexivity.
Qed.

(** C6, as amended.  For equal-length sequences the directional accuracy of
    both metric functions is the percentage of consecutive pairs i at which
    the two changes agree on being a rise, that is
    (y_true[i+1] - y_true[i] > 0) == (y_pred[i+1] - y_pred[i] > 0); it is
    NaN exactly when there are fewer than 2 points. *)
Theorem directional_accuracy_rise_match `{Numpy} (y_true y_pred : list Q) :
  length y_true = length y_pred ->
  directional_accuracy (Evaluate.compute_metrics y_true y_pred)
    = DirectionSpec.rise_match_percent y_true y_pred
  /\ directional_accuracy (Baselines.compute_baseline_metrics y_true y_pred)
    = DirectionSpec.rise_match_percent y_true y_pred
  /\ (DirectionSpec.rise_match_percent y_true y_pred = None <-> (length y_true < 2)%nat).
Proof.
  intros Hlen. split; [|split].
  - now apply directional_by_index.
  - now apply directional_by_index.
  - unfold DirectionSpec.rise_match_percent, DirectionSpec.percent_of_pairs.
    destruct (Nat.ltb_spec (length y_true) 2); split; intros; try lia; congruence.
Qed.

Lemma directional_accuracy_rise_match_witness :
  directional_accuracy (@Evaluate.compute_metrics RationalNumpy [10; 0; 20]%Q [12; 1; 18]%Q)
  = DirectionSpec.rise_match_percent [10; 0; 20]%Q [12; 1; 18]%Q.
Proof.
  apply (@directional_accuracy_rise_match RationalNumpy [10; 0; 20]%Q [12; 1; 18]%Q).
  reflexivity.
Defined.

Example directional_accuracy_example :
  metric_eq
    (directional_accuracy (@Evaluate.compute_metrics RationalNumpy [10; 0; 20]%Q [12; 1; 18]%Q))
    (Some 100%Q).
Proof. vm_compute. reflexivity. Qed.

(** C6, as stated, fails when one series is flat where the other falls: for
    y_true = [1, 1] and y_pred = [1, 0] the signs of the changes are 0 and
    -1, so no pair matches in sign, but neither change is a rise and the
    code reports 100. *)
Lemma directional_accuracy_flat_against_fall :
  directional_accuracy (@Evaluate.compute_metrics RationalNumpy [1; 1]%Q [1; 0]%Q) = Some (100 # 1)
  /\ directional_accuracy (@Baselines.compute_baseline_metrics RationalNumpy [1; 1]%Q [1; 0]%Q)
     = Some (100 # 1)
  /\ DirectionSpec.sign_match_percent [1; 1]%Q [1; 0]%Q = Some (0 # 1).
Proof. repeat split; vm_compute; reflexivity. Qed.

(** ** [NaiveBaseline] *)

Lemma naive_after_fitted (fits : list (list Q)) :
  fits <> [] -> exists v, Baselines.last_value (naive_after fits) = Some v.
Proof.
  unfold naive_after. intros Hne.
  destruct (exists_last Hne) as (front & d & ->).
  rewrite fold_left_app. simpl. eexists. reflexivity.
Qed.

(** C10.  [fit] on an empty training sequence does not fail and stores 0.0;
    [predict(horizon)] then returns [horizon] zeros (numpy's own error for a
    negative length apart), never the not-fitted error; and on any object
    [predict] raises the not-fitted error if and only if [fit] was never
    called on it. *)
Theorem naive_fit_empty_then_predict :
  (forall self : Baselines.NaiveBaseline,
      Baselines.last_value (Baselines.naive_fit self []) = Some 0%Q)
  /\ (forall (self : Baselines.NaiveBaseline) (horizon : Z),
      Baselines.naive_predict (Baselines.naive_fit self []) horizon
      = if horizon <? 0 then Raise NegativeDimensions
        else Ok (repeat 0%Q (Z.to_nat horizon)))
  /\ (forall (fits : list (list Q)) (horizon : Z),
      Baselines.naive_predict (naive_after fits) horizon = Raise NotFittedBaseline
      <-> fits = []).
Proof.
  split; [|split].
  - reflexivity.
  - reflexivity.
  - intros fits horizon. split.
    + intros Hraise. destruct fits as [|d t]; [reflexivity|].
      destruct (naive_after_fitted (d :: t)) as [v Hv]; [discriminate|].
      unfold Baselines.naive_predict in Hraise. rewrite Hv in Hraise.
      unfold Baselines.np_full in Hraise.
      destruct (horizon <? 0); discriminate.
    + intros ->. reflexivity.
Qed.

Example naive_predict_after_empty_fit :
  Baselines.naive_predict (Baselines.naive_fit Baselines.naive_init []) 3 = Ok [0; 0; 0]%Q.
Proof. reflexivity. Qed.

(** ** Artifact directory keys *)

Lemma string_length_append (s1 s2 : string) :
  String.length (String.append s1 s2) = (String.length s1 + String.length s2)%nat.
Proof.
  induction s1 as [|a s1 IH]; [reflexivity|].
  change (String.append (String a s1) s2) with (String a (String.append s1 s2)).
  cbn [String.length]. now rewrite IH.
Qed.

Lemma replace_underscores_length (s : string) (k : nat) :
  (k <= 1)%nat ->
  (String.length (Py.replace_from "__" "_" k s) <= String.length s - k)%nat.
Proof.
  revert k. induction s as [|c s' IH]; intros k Hk; [simpl; lia|].
  destruct k as [|k].
  - cbn [Py.replace_from].
    destruct (String.prefix "__" (String c s')) eqn:E.
    + assert (Hs' : (1 <= String.length s')%nat).
      { cbn [String.prefix] in E. destruct (ascii_dec "_" c); [|discriminate].
        destruct s'; [discriminate | simpl; lia]. }
      clear E. specialize (IH 1%nat (le_n 1)).
      rewrite ?string_length_append. cbn [String.length Nat.sub] in *. lia.
    + clear E. specialize (IH 0%nat (Nat.le_0_l 1)).
      rewrite ?string_length_append. cbn [String.length Nat.sub] in *. lia.
  - cbn [Py.replace_from]. specialize (IH k ltac:(lia)).
    cbn [String.length Nat.sub]. lia.
Qed.

Lemma replace_underscores_shorter (s : string) :
  Py.contains "__" s = true ->
  (String.length (Py.replace "__" "_" s) < String.length s)%nat.
Proof.
  unfold Py.replace. induction s as [|c s' IH]; [discriminate|].
  intros Hc. cbn [Py.replace_from Py.contains] in *.
  destruct (String.prefix "__" (String c s')) eqn:E.
  - assert (Hs' : (1 <= String.length s')%nat).
    { cbn [String.prefix] in E. destruct (ascii_dec "_" c); [|discriminate].
      destruct s'; [discriminate | simpl; lia]. }
    clear E. pose proof (replace_underscores_length s' 1 (le_n 1)).
    rewrite ?string_length_append. cbn [String.length Nat.sub] in *. lia.
  - specialize (IH Hc). cbn [String.length]. lia.
Qed.

(** The fuel of [collapse_loop] is enough: the loop ends because its
    condition fails, as the [while] of the source does. *)
Lemma collapse_loop_done (fuel : nat) (s : string) :
  (String.length s <= fuel)%nat ->
  Py.contains "__" (Slug.collapse_loop fuel s) = false.
Proof.
  revert s. induction fuel as [|n IH]; intros s Hlen.
  - destruct s; [reflexivity | simpl in Hlen; lia].
  - cbn [Slug.collapse_loop]. destruct (Py.contains "__" s) eqn:E; [|exact E].
    apply IH. pose proof (replace_underscores_shorter s E). lia.
Qed.

Lemma collapse_underscores_done (s : string) :
  Py.contains "__" (Slug.collapse_underscores s) = false.
Proof. apply collapse_loop_done. lia. Qed.

Example slug_new_york :
  Slug.get_artifacts_path "Software Engineer" "New York, NY" = "software_engineer_new_york_ny"%string
  /\ Slug.train_artifacts_dir "Software Engineer" "New York, NY" = "software_engineer_new_york_ny"%string.
Proof. split; reflexivity. Qed.

(** C8.  The key under which training exports and the key under which
    serving looks agree for "New York, NY" but not for every location: for
    role "Data Scientist" and location "Austin,TX" training writes to
    [data_scientist_austintx] and serving reads [data_scientist_austin_tx]. *)
Theorem artifact_key_mismatch :
  Slug.train_artifacts_dir "Data Scientist" "Austin,TX" = "data_scientist_austintx"%string
  /\ Slug.get_artifacts_path "Data Scientist" "Austin,TX" = "data_scientist_austin_tx"%string
  /\ Slug.train_artifacts_dir "Data Scientist" "Austin,TX"
     <> Slug.get_artifacts_path "Data Scientist" "Austin,TX".
Proof. repeat split; vm_compute; congruence. Qed.

(** ** [predict_recursive] *)

Section Recursive.
Context `{Torch}.

Lemma loop_S (model : LSTMForecaster) (n : nat) (init : list Q) :
  ForecastService.loop model (S n) init =
  (List.tl (fst (ForecastService.loop model n init))
     ++ [forward model (fst (ForecastService.loop model n init))],
   snd (ForecastService.loop model n init)
     ++ [forward model (fst (ForecastService.loop model n init))]).
Proof.
  unfold ForecastService.loop.
  change (Nat.iter (S n) (ForecastService.step model) (init, []))
    with (ForecastService.step model (Nat.iter n (ForecastService.step model) (init, []))).
  destruct (Nat.iter n (ForecastService.step model) (init, [])) as [cur preds].
  reflexivity.
Qed.

Lemma loop_length (model : LSTMForecaster) (n : nat) (init : list Q) :
  length (snd (ForecastService.loop model n init)) = n.
Proof.
  induction n as [|n IH]; [reflexivity|].
  rewrite loop_S. cbn [snd]. rewrite length_app, IH. simpl. lia.
Qed.

Lemma loop_nth (model : LSTMForecaster) (n k : nat) (init : list Q) :
  (k < n)%nat ->
  nth_error (snd (ForecastService.loop model n init)) k
  = Some (forward model (fst (ForecastService.loop model k init))).
Proof.
  induction n as [|n IH]; intros Hk; [lia|].
  rewrite loop_S. cbn [snd].
  destruct (Nat.eq_dec k n) as [->|Hne].
  - rewrite nth_error_app2 by (rewrite loop_length; lia).
    rewrite loop_length, Nat.sub_diag. reflexivity.
  - rewrite nth_error_app1 by (rewrite loop_length; lia).
    apply IH. lia.
Qed.

(** With a non-empty seed the window keeps its length, and after [k]
    passes it is the seed followed by the predictions, less its [k]
    oldest values. *)
Lemma loop_window (model : LSTMForecaster) (n : nat) (init : list Q) :
  init <> [] ->
  fst (ForecastService.loop model n init)
  = skipn n (init ++ snd (ForecastService.loop model n init)).
Proof.
  intros Hne. induction n as [|n IH].
  - unfold ForecastService.loop. simpl. now rewrite app_nil_r.
  - rewrite loop_S. cbn [fst snd]. rewrite IH at 1.
    set (preds := snd (ForecastService.loop model n init)) in *.
    set (p := forward model (fst (ForecastService.loop model n init))).
    assert (Hlen : length preds = n) by apply loop_length.
    rewrite app_assoc.
    rewrite (skipn_app (S n)).
    replace (S n - length (init ++ preds))%nat with 0%nat
      by (rewrite length_app; destruct init; [congruence | simpl; lia]).
    rewrite skipn_O. f_equal.
    generalize (init ++ preds). intros l. clear.
    revert l. induction n as [|n IHn]; intros [|x l]; try reflexivity.
    simpl. apply IHn.
Qed.

Lemma clamp_nonneg (x : Q) : (0 <= ForecastService.clamp x)%Q.
Proof.
  unfold ForecastService.clamp, Py.ltb.
  destruct (Qle_bool 0 x) eqn:E; simpl.
  - now apply Qle_bool_iff.
  - apply Qle_refl.
Qed.

Lemma predict_recursive_eq (model : LSTMForecaster) (sc : Sklearn.scaler) (p : Sklearn.params)
    (seed : list Q) (horizon : Z) :
  Sklearn.fitted sc = Some p ->
  ForecastService.predict_recursive model sc seed horizon
  = Ok (map (fun v => ForecastService.clamp (Sklearn.inverse1 p v))
          (snd (ForecastService.loop (eval model) (Z.to_nat horizon)
                  (map (Sklearn.transform1 p) seed)))).
Proof.
  intros Hp. unfold ForecastService.predict_recursive, Sklearn.transform, Sklearn.inverse_transform.
  rewrite Hp. cbn [rbind fst snd]. rewrite Hp. cbn [rbind fst snd].
  now rewrite map_map.
Qed.

Lemma predict_recursive_length (model : LSTMForecaster) (sc : Sklearn.scaler)
    (seed : list Q) (horizon : Z) (out : list Q) :
  ForecastService.predict_recursive model sc seed horizon = Ok out ->
  length out = Z.to_nat horizon.
Proof.
  destruct (Sklearn.fitted sc) as [p|] eqn:Hp.
  - rewrite (predict_recursive_eq _ _ p) by exact Hp.
    intros [= <-]. now rewrite length_map, loop_length.
  - unfold ForecastService.predict_recursive, Sklearn.transform. now rewrite Hp.
Qed.

(** C5.  With a fitted scaler and a horizon >= 1, [predict_recursive]
    returns a sequence of exactly [horizon] values, each >= 0.  The result
    is a function of the weights, the scaler, the seed window and the
    horizon alone: any model object with the same weights, whatever mode
    it is in, gives the same output.  The value at position k comes from
    the model's output on the window of pass k, and the window of pass
    k + 1 is the window of pass k without its oldest value and with that
    output appended; the first window is the scaled seed. *)
Theorem predict_recursive_contract (model : LSTMForecaster) (sc : Sklearn.scaler)
    (p : Sklearn.params) (seed : list Q) (horizon : Z) :
  1 <= horizon ->
  Sklearn.fitted sc = Some p ->
  exists out,
    ForecastService.predict_recursive model sc seed horizon = Ok out
    /\ Z.of_nat (length out) = horizon
    /\ Forall (fun v => (0 <= v)%Q) out
    /\ (forall model' : LSTMForecaster,
          weights model' = weights model ->
          ForecastService.predict_recursive model' sc seed horizon = Ok out)
    /\ input_window model p seed 0 = map (Sklearn.transform1 p) seed
    /\ (forall k : nat, (k < length out)%nat ->
          nth_error out k
          = Some (ForecastService.clamp
                    (Sklearn.inverse1 p (forward (eval model) (input_window model p seed k))))
          /\ input_window model p seed (S k)
             = List.tl (input_window model p seed k)
                 ++ [forward (eval model) (input_window model p seed k)]).
Proof.
  intros Hh Hp. eexists. split; [apply (predict_recursive_eq _ _ p _ _ Hp)|].
  split; [rewrite length_map, loop_length; lia|].
  split; [apply List.Forall_forall; intros v Hv; apply in_map_iff in Hv as (u & <- & _);
          apply clamp_nonneg|].
  split.
  { intros model' Hw. rewrite (predict_recursive_eq _ _ p _ _ Hp).
    unfold eval. now rewrite Hw. }
  split; [reflexivity|].
  intros k Hk. rewrite length_map, loop_length in Hk. split.
  - rewrite nth_error_map, loop_nth by exact Hk. reflexivity.
  - unfold input_window. rewrite loop_S. reflexivity.
Qed.

End Recursive.

Lemma predict_recursive_contract_witness :
  exists out,
    @ForecastService.predict_recursive DriftTorch drift_model fitted_minmax [20; 30]%Q 3 = Ok out
    /\ Z.of_nat (length out) = 3
    /\ Forall (fun v => (0 <= v)%Q) out.
Proof.
  destruct (@predict_recursive_contract DriftTorch drift_model fitted_minmax
              (Sklearn.MinMaxParams 10 30 (1 / (30 - 10)) (0 - 10 * (1 / (30 - 10))))
              [20; 30]%Q 3) as (out & Hout & Hlen & Hpos & _).
  - lia.
  - reflexivity.
  - exists out. repeat split; assumption.
Defined.

Example predict_recursive_drift :
  exists out,
    @ForecastService.predict_recursive DriftTorch drift_model fitted_minmax [20; 30]%Q 3 = Ok out
    /\ Forall2 Qeq out [32; 34; 36]%Q.
Proof.
  eexists. split; [vm_compute; reflexivity|].
  repeat constructor.
Qed.

(** ** [ForecastService.forecast] *)

Section Forecast.
Context `{Torch}.

(** [load_model] leaves [recursive_calls] alone. *)
Lemma load_model_calls (disk : Disk) (role location : string) (self : ForecastService.t) :
  ForecastService.recursive_calls (snd (ForecastService.load_model disk role location self))
  = ForecastService.recursive_calls self.
Proof.
  unfold ForecastService.load_model.
  destruct (ForecastService.cache self !! _); [reflexivity|].
  destruct (artifact_dirs disk !! _); reflexivity.
Qed.

(** [forecast] once the model and the history are loaded. *)
Lemma forecast_after_loads (disk : Disk) (role location : string) (horizon : Z)
    (self self1 : ForecastService.t) (a : Artifact) (df : Datasets.DataFrame) :
  ForecastService.load_model disk role location self = (Ok a, self1) ->
  DataStore.load_series disk role location (Some DataStore.MAX_HISTORY_WEEKS) = Ok df ->
  (Z.of_nat (length df) <? md_window_size (art_metadata a)) = true ->
  ForecastService.forecast disk role location horizon self = (Raise InsufficientHistory, self1).
Proof.
  intros Hload Hseries Hshort.
  unfold ForecastService.forecast, ForecastService.bind, ForecastService.lift.
  rewrite Hload, Hseries, Hshort. reflexivity.
Qed.

(** C7.  When the model artifact loads and the history has fewer than
    [window_size] points, [forecast] raises the insufficient-history
    error, and the service state it leaves is the one [load_model] left:
    [predict_recursive] was not called. *)
Theorem forecast_insufficient_history (disk : Disk) (role location : string) (horizon : Z)
    (self self1 : ForecastService.t) (a : Artifact) (df : Datasets.DataFrame) :
  ForecastService.load_model disk role location self = (Ok a, self1) ->
  DataStore.load_series disk role location (Some DataStore.MAX_HISTORY_WEEKS) = Ok df ->
  Z.of_nat (length df) < md_window_size (art_metadata a) ->
  ForecastService.forecast disk role location horizon self = (Raise InsufficientHistory, self1)
  /\ ForecastService.recursive_calls self1 = ForecastService.recursive_calls self.
Proof.
  intros Hload Hseries Hshort. split.
  - apply (forecast_after_loads _ _ _ _ _ _ a df Hload Hseries). now apply Z.ltb_lt.
  - pose proof (load_model_calls disk role location self) as Hc.
    now rewrite Hload in Hc.
Qed.

End Forecast.

Lemma forecast_insufficient_history_witness :
  exists self1,
    ForecastService.forecast wide_window_disk "Software Engineer" "New York, NY" 8
      ForecastService.init = (Raise InsufficientHistory, self1)
    /\ ForecastService.recursive_calls self1 = [].
Proof.
  eexists.
  eapply (@forecast_insufficient_history DriftTorch wide_window_disk
            "Software Engineer" "New York, NY" 8 ForecastService.init).
  - vm_compute. reflexivity.
  - vm_compute. reflexivity.
  - vm_compute. reflexivity.
Defined.

Section ForecastLength.
Context `{Torch}.

Lemma getitem_last {A} (l : list A) (d : A) :
  l <> [] -> Py.getitem l (-1) = Ok (List.last l d).
Proof.
  intros Hne. unfold Py.getitem.
  destruct (exists_last Hne) as (front & a & ->).
  rewrite last_last, length_app. cbn [length].
  change (-1 <? 0) with true. cbv iota.
  destruct (Z.ltb_spec (Z.of_nat (length front + 1) + -1) 0) as [?|_]; [lia|].
  destruct (Z.leb_spec (Z.of_nat (length front + 1)) (Z.of_nat (length front + 1) + -1))
    as [?|_]; [lia|].
  cbn [orb].
  replace (Z.to_nat (Z.of_nat (length front + 1) + -1)) with (length front) by lia.
  rewrite nth_error_app2, Nat.sub_diag by lia. reflexivity.
Qed.

Lemma range_length (n : Z) : length (Py.range n) = Z.to_nat n.
Proof. unfold Py.range. apply length_seq. Qed.

Lemma special_case_horizon (role location : string) (horizon : Z) :
  ForecastService.special_case role location horizon = true -> 52 <= horizon.
Proof.
  unfold ForecastService.special_case. intros Hs.
  apply andb_true_iff in Hs as [_ Hh]. now apply Z.leb_le.
Qed.

(** C1, as amended.  For a horizon in 1..52, when the model artifact loads
    with a fitted scaler and the history is not empty and has at least
    [window_size] points, [forecast] returns a result whose forecast has
    exactly [horizon] points, except under the guard of line 176 (role
    "Software Engineer", a location containing "New York", horizon 52),
    where it has 56. *)
Theorem forecast_length (disk : Disk) (role location : string) (horizon : Z)
    (self self1 : ForecastService.t) (a : Artifact) (p : Sklearn.params)
    (df : Datasets.DataFrame) :
  1 <= horizon <= 52 ->
  ForecastService.load_model disk role location self = (Ok a, self1) ->
  Sklearn.fitted (art_scaler a) = Some p ->
  DataStore.load_series disk role location (Some DataStore.MAX_HISTORY_WEEKS) = Ok df ->
  df <> [] ->
  md_window_size (art_metadata a) <= Z.of_nat (length df) ->
  exists (r : ForecastService.ForecastResult) (self2 : ForecastService.t),
    ForecastService.forecast disk role location horizon self = (Ok r, self2)
    /\ Z.of_nat (length (ForecastService.fr_forecast r))
       = if ForecastService.special_case role location horizon then 56 else horizon.
Proof.
  intros Hh Hload Hp Hseries Hne Hlen.
  unfold ForecastService.forecast, ForecastService.bind, ForecastService.lift,
    ForecastService.call_predict_recursive, ForecastService.ret.
  rewrite Hload, Hseries.
  destruct (Z.ltb_spec (Z.of_nat (length df)) (md_window_size (art_metadata a))) as [?|_]; [lia|].
  rewrite (predict_recursive_eq _ _ p _ _ Hp).
  rewrite (getitem_last _ 0) by (destruct df; [congruence | discriminate]).
  destruct (ForecastService.special_case role location horizon) eqn:Hs.
  - assert (horizon = 52) by (apply special_case_horizon in Hs; lia). subst horizon.
    change (52 <? 52) with false. change (52 =? 52) with true. cbv iota.
    rewrite (predict_recursive_eq _ _ p _ _ Hp).
    eexists. eexists. split; [reflexivity|].
    cbn [ForecastService.fr_forecast].
    rewrite length_map, length_combine, !length_map, range_length, loop_length.
    reflexivity.
  - eexists. eexists. split; [reflexivity|].
    cbn [ForecastService.fr_forecast].
    rewrite length_map, length_combine, !length_map, range_length, loop_length.
    lia.
Qed.

End ForecastLength.

Lemma forecast_length_witness :
  exists (r : ForecastService.ForecastResult) (self2 : ForecastService.t),
    ForecastService.forecast new_york_disk "Software Engineer" "New York, NY" 8
      ForecastService.init = (Ok r, self2)
    /\ Z.of_nat (length (ForecastService.fr_forecast r)) = 8.
Proof.
  eapply (@forecast_length DriftTorch new_york_disk "Software Engineer" "New York, NY" 8
            ForecastService.init).
  - lia.
  - vm_compute. reflexivity.
  - vm_compute. reflexivity.
  - vm_compute. reflexivity.
  - discriminate.
  - vm_compute. discriminate.
Defined.

(** C1, as stated, fails at horizon 52 for role "Software Engineer" and
    location "New York, NY": the guard of line 176 holds, the dates cover 56
    weeks, [predict_recursive] is run again with horizon 56, and the
    forecast returned has 56 points. *)
Lemma forecast_new_york_52 :
  exists (r : ForecastService.ForecastResult) (self2 : ForecastService.t),
    ForecastService.forecast new_york_disk "Software Engineer" "New York, NY" 52
      ForecastService.init = (Ok r, self2)
    /\ length (ForecastService.fr_forecast r) = 56%nat
    /\ ForecastService.recursive_calls self2 = [52; 56].
Proof.
  eexists. eexists. split; [vm_compute; reflexivity|].
  split; reflexivity.
Qed.

(** ** The model cache *)

Section Cache.
Context `{Torch}.















End Cache.

Example model_key_shared :
  ForecastService.get_model_key "a|b" "c" = ForecastService.get_model_key "a" "b|c".
Proof. reflexivity. Qed.

Example model_key_keeps_case :
  ForecastService.get_model_key "Software Engineer" "New York, NY" = "Software Engineer|New York, NY"%string.
Proof. reflexivity. Qed.

(** The artifact exported for "Austin,TX" is not found when serving. *)
Example exported_artifact_not_found :
  ForecastService.load_model austin_disk "Data Scientist" "Austin,TX" ForecastService.init
  = (Raise FileNotFoundError, ForecastService.init).
Proof. vm_compute. reflexivity. Qed.

(** ** [DataStore.load_series] and [DataStore.get_latest_date] *)

Lemma tail_positive {A} (l : list A) (n : Z) :
  0 < n -> DataStore.tail l n = skipn (length l - Z.to_nat n) l.
Proof.
  intros Hn. unfold DataStore.tail, Py.slice, Py.resolve.
  destruct (Z.eqb_spec n 0) as [?|_]; [lia|].
  destruct (Z.ltb_spec (- n) 0) as [_|?]; [|lia].
  replace (Z.to_nat (Z.min (Z.of_nat (length l)) (Z.max 0 (Z.of_nat (length l) + - n))))
    with (length l - Z.to_nat n)%nat by lia.
  apply firstn_all2. rewrite length_skipn. lia.
Qed.

Lemma sorted_skipn (l : Datasets.DataFrame) (k : nat) :
  Sorted Spec.date_le l -> Sorted Spec.date_le (skipn k l).
Proof.
  revert l. induction k as [|k IH]; intros l Hs; [now rewrite skipn_O|].
  destruct l as [|x t]; [constructor|]. simpl. apply IH. now inversion Hs.
Qed.

Lemma date_le_trans : Relations_1.Transitive Spec.date_le.
Proof. intros a b c. unfold Spec.date_le. lia. Qed.

Lemma sorted_last_max (l : Datasets.DataFrame) (d : Datasets.row) :
  Sorted Spec.date_le l ->
  forall r, In r l -> Datasets.week_start r <= Datasets.week_start (List.last l d).
Proof.
  intros Hs. apply (Sorted_StronglySorted date_le_trans) in Hs.
  induction Hs as [|x t Hst IH Hall]; intros r Hr; [contradiction|].
  destruct t as [|y t'].
  - destruct Hr as [->|[]]. simpl. lia.
  - change (List.last (x :: y :: t') d) with (List.last (y :: t') d).
    destruct Hr as [->|Hr]; [|now apply IH].
    rewrite List.Forall_forall in Hall.
    assert (Hin : In (List.last (y :: t') d) (y :: t')).
    { destruct (exists_last (l := y :: t')) as (front & z & E); [discriminate|].
      rewrite E, last_last. apply in_or_app. right. now left. }
    exact (Hall _ Hin).
Qed.

Lemma load_series_found `{Torch} (disk : Disk) (role location : string) (max_weeks : Z)
    (rows : Datasets.DataFrame) :
  csv_files disk !! DataStore.get_csv_path role location = Some rows ->
  0 < max_weeks ->
  DataStore.load_series disk role location (Some max_weeks)
  = Ok (skipn (length rows - Z.to_nat max_weeks) (Datasets.sort_values rows)).
Proof.
  intros Hcsv Hn. unfold DataStore.load_series. rewrite Hcsv.
  destruct (Z.eqb_spec max_weeks 0) as [?|_]; [lia|].
  now rewrite tail_positive, sort_values_length.
Qed.

Lemma load_series_missing `{Torch} (disk : Disk) (role location : string) (max_weeks : option Z) :
  csv_files disk !! DataStore.get_csv_path role location = None ->
  DataStore.load_series disk role location max_weeks = Raise FileNotFoundError.
Proof. intros Hcsv. unfold DataStore.load_series. now rewrite Hcsv. Qed.

(** X1.  For a positive [max_weeks], [load_series] raises
    [FileNotFoundError] when the CSV is missing, and otherwise returns the
    [max_weeks] most recent rows of the file in ascending date order (all
    rows when the file has fewer). *)
Theorem load_series_most_recent `{Torch} (disk : Disk) (role location : string) (max_weeks : Z) :
  0 < max_weeks ->
  match csv_files disk !! DataStore.get_csv_path role location with
  | None => DataStore.load_series disk role location (Some max_weeks) = Raise FileNotFoundError
  | Some rows =>
      exists df,
        DataStore.load_series disk role location (Some max_weeks) = Ok df
        /\ df = skipn (length rows - Z.to_nat max_weeks) (Datasets.sort_values rows)
        /\ Sorted Spec.date_le df
        /\ Z.of_nat (length df) = Z.min max_weeks (Z.of_nat (length rows))
        /\ (forall r, In r df -> In r rows)
  end.
Proof.
  intros Hn.
  destruct (csv_files disk !! DataStore.get_csv_path role location) as [rows|] eqn:Hcsv;
    [|now rewrite (load_series_missing _ _ _ _ Hcsv)].
  rewrite (load_series_found _ _ _ _ _ Hcsv Hn).
  eexists. split; [reflexivity|]. split; [reflexivity|].
  split; [apply sorted_skipn, sort_values_sorted|].
  split; [rewrite length_skipn, sort_values_length; lia|].
  intros r Hr. apply (Permutation_in r (Permutation_sym (sort_values_perm rows))).
  rewrite <- (firstn_skipn (length rows - Z.to_nat max_weeks) (Datasets.sort_values rows)).
  apply in_or_app. now right.
Qed.

Lemma load_series_most_recent_witness :
  exists df,
    DataStore.load_series new_york_disk "Software Engineer" "New York, NY" (Some 2) = Ok df
    /\ df = skipn (length three_weeks - Z.to_nat 2) (Datasets.sort_values three_weeks).
Proof.
  pose proof (@load_series_most_recent DriftTorch new_york_disk
                "Software Engineer" "New York, NY" 2 ltac:(lia)) as Hw.
  change (csv_files new_york_disk !! DataStore.get_csv_path "Software Engineer" "New York, NY")
    with (Some three_weeks) in Hw.
  destruct Hw as (df & H1 & H2 & _). exists df. split; assumption.
Defined.

(** X2.  [get_latest_date] returns no date when the CSV is missing or has
    no rows, and otherwise the latest [week_start] of the file: a date of
    the file that no other date of the file exceeds.  It never raises
    [FileNotFoundError]. *)
Theorem get_latest_date_is_latest `{Torch} (disk : Disk) (role location : string) :
  match csv_files disk !! DataStore.get_csv_path role location with
  | None | Some [] => get_latest_date disk role location = Ok None
  | Some rows =>
      exists d, get_latest_date disk role location = Ok (Some d)
                /\ In d (map Datasets.week_start rows)
                /\ Forall (fun r => Datasets.week_start r <= d) rows
  end.
Proof.
  unfold get_latest_date.
  destruct (csv_files disk !! DataStore.get_csv_path role location) as [rows|] eqn:Hcsv;
    [|now rewrite (load_series_missing _ _ _ _ Hcsv)].
  rewrite (load_series_found _ _ _ 1 _ Hcsv) by lia.
  destruct rows as [|r0 rows']; [reflexivity|].
  set (rows := r0 :: rows') in *.
  set (df := skipn (length rows - Z.to_nat 1) (Datasets.sort_values rows)).
  assert (Hdf : df = skipn (length rows - Z.to_nat 1) (Datasets.sort_values rows)) by reflexivity.
  clearbody df.
  assert (Hne : Datasets.sort_values rows <> []).
  { intros E. pose proof (sort_values_length rows) as Hl. rewrite E in Hl. discriminate. }
  destruct (exists_last Hne) as (front & z & Hz).
  assert (Hdfz : df = [z]).
  { subst df. rewrite Hz. rewrite <- (sort_values_length rows), Hz, length_app. simpl.
    replace (length front + 1 - Z.to_nat 1)%nat with (length front) by lia.
    rewrite skipn_app, Nat.sub_diag, skipn_all. reflexivity. }
  rewrite Hdfz. cbn [length Nat.ltb Nat.leb map]. rewrite (getitem_last _ 0) by discriminate.
  cbn [rbind List.last].
  exists (Datasets.week_start z). split; [reflexivity|].
  assert (Hzin : In z rows).
  { apply (Permutation_in z (Permutation_sym (sort_values_perm rows))).
    rewrite Hz. apply in_or_app. right. now left. }
  split; [exact (in_map Datasets.week_start rows z Hzin)|].
  apply List.Forall_forall. intros r Hr.
  pose proof (sorted_last_max (Datasets.sort_values rows) z (sort_values_sorted rows) r
                (Permutation_in r (sort_values_perm rows) Hr)) as Hmax.
  now rewrite Hz, last_last in Hmax.
Qed.

(** ** The dates and the history of a forecast *)



Lemma map_fst_combine {A B} (l : list A) (l' : list B) :
  length l = length l' -> map fst (combine l l') = l.
Proof.
  revert l'. induction l as [|a t IH]; intros [|b t'] Hl; try discriminate; [reflexivity|].
  simpl. f_equal. apply IH. now injection Hl.
Qed.


Section ForecastDates.
Context `{Torch}.


(** X4.  Under the guard of line 176 (role "Software Engineer", a location
    containing "New York", horizon >= 52) the forecast dates do not depend
    on the history: point k is dated k weeks after 2 June 2025.  At horizon
    52 there are 56 points and [predict_recursive] has run twice, with
    horizons 52 and 56; above 52 there are [horizon] points from one run. *)
Theorem forecast_dates_under_guard (disk : Disk) (role location : string) (horizon : Z)
    (self self1 : ForecastService.t) (a : Artifact) (p : Sklearn.params)
    (df : Datasets.DataFrame) :
  ForecastService.load_model disk role location self = (Ok a, self1) ->
  Sklearn.fitted (art_scaler a) = Some p ->
  DataStore.load_series disk role location (Some DataStore.MAX_HISTORY_WEEKS) = Ok df ->
  df <> [] ->
  md_window_size (art_metadata a) <= Z.of_nat (length df) ->
  ForecastService.special_case role location horizon = true ->
  exists (r : ForecastService.ForecastResult) (self2 : ForecastService.t),
    ForecastService.forecast disk role location horizon self = (Ok r, self2)
    /\ map DataStore.pt_week_start (ForecastService.fr_forecast r)
       = map (fun k => ForecastService.june_2_2025 + 7 * Z.of_nat k)
             (seq 0 (if horizon =? 52 then 56 else Z.to_nat horizon))
    /\ ForecastService.recursive_calls self2
       = ForecastService.recursive_calls self1
           ++ (if horizon =? 52 then [52; 56] else [horizon]).
Proof.
  intros Hload Hp Hseries Hne Hlen Hs.
  pose proof (special_case_horizon _ _ _ Hs) as Hh.
  unfold ForecastService.forecast, ForecastService.bind, ForecastService.lift,
    ForecastService.call_predict_recursive, ForecastService.ret.
  rewrite Hload, Hseries.
  destruct (Z.ltb_spec (Z.of_nat (length df)) (md_window_size (art_metadata a))) as [?|_]; [lia|].
  rewrite (predict_recursive_eq _ _ p _ _ Hp).
  rewrite (getitem_last _ 0) by (destruct df; [congruence | discriminate]).
  rewrite Hs.
  destruct (Z.eqb_spec horizon 52) as [->|Hne52].
  - change (52 <? 52) with false. cbv iota.
    rewrite (predict_recursive_eq _ _ p _ _ Hp).
    eexists. eexists. split; [reflexivity|].
    cbn [ForecastService.fr_forecast ForecastService.recursive_calls]. split.
    + rewrite map_map. cbn [DataStore.pt_week_start].
      rewrite <- (map_map fst (fun x => x)), map_id, map_fst_combine; [reflexivity|].
      rewrite !length_map, range_length, loop_length. reflexivity.
    + now rewrite <- app_assoc.
  - destruct (Z.ltb_spec 52 horizon) as [_|?]; [|lia].
    eexists. eexists. split; [reflexivity|].
    cbn [ForecastService.fr_forecast ForecastService.recursive_calls]. split; [|reflexivity].
    rewrite map_map. cbn [DataStore.pt_week_start].
    rewrite <- (map_map fst (fun x => x)), map_id, map_fst_combine.
    + unfold Py.range. do 2 f_equal. lia.
    + rewrite !length_map, range_length, loop_length. lia.
Qed.

End ForecastDates.


Lemma forecast_dates_under_guard_witness :
  exists (r : ForecastService.ForecastResult) (self2 : ForecastService.t),
    ForecastService.forecast new_york_disk "Software Engineer" "New York, NY" 60
      ForecastService.init = (Ok r, self2)
    /\ map DataStore.pt_week_start (ForecastService.fr_forecast r)
       = map (fun k => ForecastService.june_2_2025 + 7 * Z.of_nat k) (seq 0 60).
Proof.
  destruct (@forecast_dates_under_guard DriftTorch new_york_disk
              "Software Engineer" "New York, NY" 60 ForecastService.init
              (snd (ForecastService.load_model new_york_disk "Software Engineer" "New York, NY"
                      ForecastService.init))
              (load_model_artifacts new_york_artifact)
              (Sklearn.MinMaxParams 10 30 (1 / (30 - 10)) (0 - 10 * (1 / (30 - 10))))
              three_weeks)
    as (r & self2 & Hf & Hd & _).
  - vm_compute. reflexivity.
  - reflexivity.
  - vm_compute. reflexivity.
  - discriminate.
  - vm_compute. discriminate.
  - reflexivity.
  - exists r, self2. split; assumption.
Defined.

(** ** The shape of the slugs *)

Lemma lower_ascii_idem (c : ascii) : Py.lower_ascii (Py.lower_ascii c) = Py.lower_ascii c.
Proof. destruct c as [[] [] [] [] [] [] [] []]; reflexivity. Qed.

Lemma lower_idem (s : string) : Py.lower (Py.lower s) = Py.lower s.
Proof.
  induction s as [|c s IH]; [reflexivity|].
  cbn [Py.lower]. now rewrite lower_ascii_idem, IH.
Qed.

Lemma lower_fixed (s : string) :
  string_forall (fun c => Py.lower_ascii c = c) s <-> Py.lower s = s.
Proof.
  induction s as [|c s IH]; cbn [Py.lower string_forall]; [tauto|].
  split.
  - intros [Hc Hs]. rewrite Hc. f_equal. now apply IH.
  - intros [= Hc Hs]. split; [exact Hc | now apply IH].
Qed.

Lemma forall_append (P : ascii -> Prop) (s1 s2 : string) :
  string_forall P s1 -> string_forall P s2 -> string_forall P (String.append s1 s2).
Proof.
  intros H1 H2. induction s1 as [|c s1 IH]; [exact H2|].
  change (String.append (String c s1) s2) with (String c (String.append s1 s2)).
  destruct H1 as [Hc H1]. split; [exact Hc | now apply IH].
Qed.

(** [replace] only ever adds characters of [new]. *)
Lemma forall_replace_from (P : ascii -> Prop) (old new : string) (s : string) (k : nat) :
  string_forall P new -> string_forall P s -> string_forall P (Py.replace_from old new k s).
Proof.
  intros Hnew. revert k. induction s as [|c s IH]; intros k Hs; [exact I|].
  destruct Hs as [Hc Hs]. cbn [Py.replace_from].
  destruct k as [|k]; [|now apply IH].
  destruct (String.prefix old (String c s)).
  - apply forall_append; [exact Hnew | now apply IH].
  - split; [exact Hc | now apply IH].
Qed.

(** Replacing the one-character string [c] removes every [c]. *)
Lemma replace_char_removes (c : ascii) (new : string) (s : string) :
  string_forall (fun a => a <> c) new ->
  string_forall (fun a => a <> c) (Py.replace (String c EmptyString) new s).
Proof.
  intros Hnew. unfold Py.replace. induction s as [|a s IH]; [exact I|].
  cbn [Py.replace_from String.prefix String.length Nat.sub].
  destruct (ascii_dec c a) as [->|Hne].
  - destruct s; (apply forall_append; [exact Hnew | exact IH]).
  - split; [congruence | exact IH].
Qed.

Lemma absent_no_prefix (c : ascii) (rest s : string) :
  string_forall (fun a => a <> c) s -> Py.contains (String c rest) s = false.
Proof.
  induction s as [|a s IH]; intros Hs; [reflexivity|].
  destruct Hs as [Ha Hs]. cbn [Py.contains String.prefix].
  destruct (ascii_dec c a) as [->|_]; [congruence | now apply IH].
Qed.

Lemma no_match_replace (old new s : string) :
  Py.contains old s = false -> Py.replace old new s = s.
Proof.
  unfold Py.replace. induction s as [|a s IH]; intros Hc; [reflexivity|].
  cbn [Py.contains] in Hc. cbn [Py.replace_from].
  destruct (String.prefix old (String a s)); [discriminate|].
  f_equal. now apply IH.
Qed.

Lemma forall_collapse_loop (P : ascii -> Prop) (fuel : nat) (s : string) :
  P "_"%char -> string_forall P s -> string_forall P (Slug.collapse_loop fuel s).
Proof.
  intros Hu. revert s. induction fuel as [|n IH]; intros s Hs; [exact Hs|].
  cbn [Slug.collapse_loop]. destruct (Py.contains "__" s); [|exact Hs].
  apply IH. apply forall_replace_from; [split; [exact Hu | exact I] | exact Hs].
Qed.

Lemma forall_lower (s : string) : string_forall (fun c => Py.lower_ascii c = c) (Py.lower s).
Proof. apply lower_fixed, lower_idem. Qed.

Lemma underscore_only (P : ascii -> Prop) : P "_"%char -> string_forall P "_".
Proof. intros Hu. split; [exact Hu | exact I]. Qed.

(** The three properties of the characters of a location slug. *)
Lemma location_slug_chars (location : string) :
  string_forall (fun a => a <> " "%char) (Slug.location_slug location)
  /\ string_forall (fun a => a <> ","%char) (Slug.location_slug location)
  /\ string_forall (fun c => Py.lower_ascii c = c) (Slug.location_slug location).
Proof.
  unfold Slug.location_slug, Slug.collapse_underscores. repeat split.
  - apply forall_collapse_loop; [discriminate|].
    apply replace_char_removes, underscore_only. discriminate.
  - apply forall_collapse_loop; [discriminate|].
    apply forall_replace_from; [apply underscore_only; discriminate|].
    apply replace_char_removes, underscore_only. discriminate.
  - apply forall_collapse_loop; [reflexivity|].
    unfold Py.replace.
    repeat (apply forall_replace_from; [apply underscore_only; reflexivity|]).
    apply forall_lower.
Qed.

Lemma role_slug_chars (role : string) :
  string_forall (fun a => a <> " "%char) (Slug.role_slug role)
  /\ string_forall (fun c => Py.lower_ascii c = c) (Slug.role_slug role).
Proof.
  unfold Slug.role_slug. split.
  - apply replace_char_removes, underscore_only. discriminate.
  - unfold Py.replace.
    apply forall_replace_from; [apply underscore_only; reflexivity | apply forall_lower].
Qed.

(** X5.  The directory name the service computes holds no space and no
    comma, its location part holds no doubled underscore, and it is in
    lower case: [lower] leaves both slugs unchanged. *)
Theorem slug_shape (role location : string) :
  Py.contains " " (Slug.role_slug role) = false
  /\ Py.lower (Slug.role_slug role) = Slug.role_slug role
  /\ Py.contains " " (Slug.location_slug location) = false
  /\ Py.contains "," (Slug.location_slug location) = false
  /\ Py.contains "__" (Slug.location_slug location) = false
  /\ Py.lower (Slug.location_slug location) = Slug.location_slug location.
Proof.
  destruct (location_slug_chars location) as (Hsp & Hco & Hlo).
  destruct (role_slug_chars role) as (Hrsp & Hrlo).
  repeat split.
  - now apply absent_no_prefix.
  - now apply lower_fixed.
  - now apply absent_no_prefix.
  - now apply absent_no_prefix.
  - apply collapse_underscores_done.
  - now apply lower_fixed.
Qed.

(** X6.  Slugging is idempotent: a role or location that already is a slug
    is its own slug, so the directory computed from the two slugs is the
    directory computed from the original role and location. *)
Theorem slug_idempotent (role location : string) :
  Slug.role_slug (Slug.role_slug role) = Slug.role_slug role
  /\ Slug.location_slug (Slug.location_slug location) = Slug.location_slug location
  /\ Slug.get_artifacts_path (Slug.role_slug role) (Slug.location_slug location)
     = Slug.get_artifacts_path role location.
Proof.
  destruct (location_slug_chars location) as (Hsp & Hco & Hlo).
  destruct (role_slug_chars role) as (Hrsp & Hrlo).
  assert (HR : Slug.role_slug (Slug.role_slug role) = Slug.role_slug role).
  { unfold Slug.role_slug at 1. rewrite (proj1 (lower_fixed _) Hrlo).
    now apply no_match_replace, absent_no_prefix. }
  assert (HL : Slug.location_slug (Slug.location_slug location) = Slug.location_slug location).
  { unfold Slug.location_slug at 1. rewrite (proj1 (lower_fixed _) Hlo).
    rewrite (no_match_replace ", ") by now apply absent_no_prefix.
    rewrite (no_match_replace ",") by now apply absent_no_prefix.
    rewrite (no_match_replace " ") by now apply absent_no_prefix.
    unfold Slug.collapse_underscores.
    destruct (String.length (Slug.location_slug location)); [reflexivity|].
    cbn [Slug.collapse_loop].
    assert (L3 : Py.contains "__" (Slug.location_slug location) = false)
      by (unfold Slug.location_slug; apply collapse_underscores_done).
    now rewrite L3. }
  repeat split; [exact HR | exact HL |].
  unfold Slug.get_artifacts_path. now rewrite HR, HL.
Qed.

Lemma lower_append_inj (s t1 t2 : string) :
  String.append (Py.lower s) t1 = String.append s t2 -> Py.lower s = s /\ t1 = t2.
Proof.
  induction s as [|c s IH]; [intros E; split; [reflexivity | exact E]|].
  cbn [Py.lower].
  change (String (Py.lower_ascii c) (String.append (Py.lower s) t1)
          = String c (String.append s t2) -> String (Py.lower_ascii c) (Py.lower s) = String c s /\ t1 = t2).
  intros [= Hc Hrest]. destruct (IH Hrest) as [Hs Ht].
  split; [now rewrite Hc, Hs | exact Ht].
Qed.

(** X7.  The artifact directory and the CSV file name do not depend on
    letter case, but the cache key does: a role that is not already in
    lower case and its lower-case form share the directory and have
    different cache keys. *)
Theorem paths_ignore_case_keys_do_not (role location : string) :
  Slug.get_artifacts_path (Py.lower role) (Py.lower location) = Slug.get_artifacts_path role location
  /\ DataStore.get_csv_path (Py.lower role) (Py.lower location) = DataStore.get_csv_path role location
  /\ (ForecastService.get_model_key (Py.lower role) (Py.lower location)
      = ForecastService.get_model_key role location
      <-> Py.lower role = role /\ Py.lower location = location).
Proof.
  assert (HR : Slug.role_slug (Py.lower role) = Slug.role_slug role)
    by (unfold Slug.role_slug; now rewrite lower_idem).
  assert (HL : Slug.location_slug (Py.lower location) = Slug.location_slug location)
    by (unfold Slug.location_slug; now rewrite lower_idem).
  split; [unfold Slug.get_artifacts_path; now rewrite HR, HL|].
  split; [unfold DataStore.get_csv_path; now rewrite HR, HL|].
  unfold ForecastService.get_model_key. split.
  - intros Hkey. apply lower_append_inj in Hkey as [Hr Ht].
    split; [exact Hr|].
    change (String "|" (Py.lower location) = String "|" location) in Ht.
    now injection Ht.
  - intros [-> ->]. reflexivity.
Qed.

(** ** [MovingAverageBaseline] and [ARIMABaseline] *)

Lemma slice_last_n {A} (l : list A) (k : Z) :
  1 <= k <= Z.of_nat (length l) ->
  Py.slice l (Some (- k)) None = skipn (length l - Z.to_nat k) l.
Proof.
  intros Hk. unfold Py.slice, Py.resolve.
  destruct (Z.ltb_spec (- k) 0) as [_|?]; [|lia].
  replace (Z.to_nat (Z.min (Z.of_nat (length l)) (Z.max 0 (Z.of_nat (length l) + - k))))
    with (length l - Z.to_nat k)%nat by lia.
  apply firstn_all2. rewrite length_skipn. lia.
Qed.

(** X8.  With a window of at least 1, [fit] on a non-empty series stores
    the mean of its last min(window, length) values, never NaN, and
    [predict] repeats that mean [horizon] times; [fit] on an empty series
    stores 0.0. *)
Theorem moving_average_fit_predict (w : Z) (train_data : list Q) (horizon : Z) :
  1 <= w ->
  0 <= horizon ->
  MovingAverage.predict (MovingAverage.fit (MovingAverage.init w) train_data) horizon
  = Ok (repeat
          (match train_data with
           | [] => Finite 0
           | _ => Finite (Sklearn.mean
                            (skipn (length train_data - Z.to_nat w) train_data))
           end)
          (Z.to_nat horizon)).
Proof.
  intros Hw Hh. unfold MovingAverage.predict, MovingAverage.fit, MovingAverage.init.
  cbn [MovingAverage.mean_value MovingAverage.window].
  destruct (Z.ltb_spec horizon 0) as [?|_]; [lia|].
  do 2 f_equal.
  destruct train_data as [|x t];
    [destruct (Z.ltb_spec (Z.of_nat (length (@nil Q))) w) as [_|?]; [reflexivity | simpl in *; lia]|].
  set (l := x :: t). assert (Hl : (0 < length l)%nat) by (simpl; lia).
  destruct (Z.ltb_spec (Z.of_nat (length l)) w) as [Hlt|Hge].
  - destruct (Nat.ltb_spec 0 (length l)) as [_|?]; [|lia].
    replace (length l - Z.to_nat w)%nat with 0%nat by lia. reflexivity.
  - rewrite slice_last_n by lia.
    unfold np_mean.
    destruct (skipn (length l - Z.to_nat w) l) eqn:E; [|reflexivity].
    apply (f_equal (@length Q)) in E. rewrite length_skipn in E. simpl in E. lia.
Qed.

Lemma moving_average_fit_predict_witness :
  MovingAverage.predict (MovingAverage.fit (MovingAverage.init 2) [10; 20; 40]%Q) 3
  = Ok (repeat (Finite (Sklearn.mean [20; 40]%Q)) 3).
Proof. apply (moving_average_fit_predict 2 [10; 20; 40]%Q 3); lia. Defined.

(** X9.  A window of 0 does not average nothing: [train_data[-0:]] is the
    whole series, so [fit] stores the mean of all values, and NaN on an
    empty series. *)
Theorem moving_average_window_zero (train_data : list Q) :
  MovingAverage.mean_value (MovingAverage.fit (MovingAverage.init 0) train_data)
  = Some (np_mean train_data).
Proof.
  unfold MovingAverage.fit, MovingAverage.init.
  cbn [MovingAverage.mean_value MovingAverage.window].
  destruct (Z.ltb_spec (Z.of_nat (length train_data)) 0) as [?|_]; [lia|].
  do 2 f_equal. change (- 0) with (Z.of_nat 0). rewrite slice_from. apply skipn_O.
Qed.

Section ArimaProps.
Context `{Statsmodels}.

(** X10.  Without statsmodels both methods raise [RuntimeError], whatever
    the state of the object.  With it, when fitting raises inside
    statsmodels, [fit] still returns and [predict] repeats the last
    training value (0.0 for an empty series): the prediction of
    [NaiveBaseline] fitted on the same data. *)
Theorem arima_fit_failure_falls_back_to_naive :
  (forall (self : Arima.ARIMABaseline) (train_data : list Q) (horizon : Z),
      Arima.is_available self = false ->
      Arima.fit self train_data = inl Arima.RuntimeError
      /\ Arima.predict self horizon = inl Arima.RuntimeError)
  /\ (forall (self : Arima.ARIMABaseline) (train_data : list Q) (horizon : Z),
      Arima.is_available self = true ->
      arima_fit train_data (Arima.order self) = None ->
      0 <= horizon ->
      exists self',
        Arima.fit self train_data = inr self'
        /\ exists out,
             Arima.predict self' horizon = inr out
             /\ Baselines.naive_predict (Baselines.naive_fit Baselines.naive_init train_data) horizon
                = Ok out).
Proof.
  split.
  - intros self train_data horizon Hav. unfold Arima.fit, Arima.predict. now rewrite Hav.
  - intros self train_data horizon Hav Hfit Hh.
    unfold Arima.fit. rewrite Hav, Hfit. cbn [negb].
    eexists. split; [reflexivity|].
    unfold Arima.predict. cbn [Arima.is_available Arima.fitted_model Arima.fallback_value].
    rewrite ?Hav. cbn [negb]. unfold Arima.full, Baselines.naive_predict, Baselines.naive_fit,
      Baselines.np_full. cbn [Baselines.last_value].
    destruct (Z.ltb_spec horizon 0) as [?|_]; [lia|].
    eexists. split; reflexivity.
Qed.

(** X11.  When fitting succeeds, [predict] returns statsmodels' forecast
    unchanged; when the forecast then raises, [predict] repeats the
    fallback value the object already held, which [fit] did not update: on
    a new object that is 0.0, not the last training value. *)
Theorem arima_forecast_failure_keeps_old_fallback (self : Arima.ARIMABaseline)
    (train_data : list Q) (fitted : arima_result) (horizon : Z) :
  Arima.is_available self = true ->
  arima_fit train_data (Arima.order self) = Some fitted ->
  0 <= horizon ->
  exists self',
    Arima.fit self train_data = inr self'
    /\ Arima.fallback_value self' = Arima.fallback_value self
    /\ Arima.predict self' horizon
       = match arima_forecast fitted horizon with
         | Some forecast => inr forecast
         | None => inr (repeat (Arima.fallback_value self) (Z.to_nat horizon))
         end.
Proof.
  intros Hav Hfit Hh. unfold Arima.fit. rewrite Hav, Hfit. cbn [negb].
  eexists. split; [reflexivity|]. split; [reflexivity|].
  unfold Arima.predict. cbn [Arima.is_available Arima.fitted_model Arima.fallback_value].
  rewrite ?Hav. cbn [negb].
  destruct (arima_forecast fitted horizon); [reflexivity|].
  unfold Arima.full. destruct (Z.ltb_spec horizon 0) as [?|_]; [lia | reflexivity].
Qed.

End ArimaProps.

Lemma arima_fit_failure_falls_back_to_naive_witness :
  exists self',
    @Arima.fit ToyStatsmodels (Arima.init (1, 1, 1) true) [7]%Q = inr self'
    /\ exists out, @Arima.predict ToyStatsmodels self' 3 = inr out
                   /\ Baselines.naive_predict (Baselines.naive_fit Baselines.naive_init [7]%Q) 3
                      = Ok out.
Proof.
  apply (proj2 (@arima_fit_failure_falls_back_to_naive ToyStatsmodels)
           (Arima.init (1, 1, 1) true) [7]%Q 3).
  - reflexivity.
  - reflexivity.
  - lia.
Defined.

Lemma arima_forecast_failure_keeps_old_fallback_witness :
  exists self',
    @Arima.fit ToyStatsmodels (Arima.init (1, 1, 1) true) [10; 20; 40]%Q = inr self'
    /\ @Arima.predict ToyStatsmodels self' 101 = inr (repeat 0%Q 101).
Proof.
  destruct (@arima_forecast_failure_keeps_old_fallback ToyStatsmodels
              (Arima.init (1, 1, 1) true) [10; 20; 40]%Q (Sklearn.mean [10; 20; 40]%Q) 101)
    as (self' & Hfit & _ & Hpred).
  - reflexivity.
  - reflexivity.
  - lia.
  - exists self'. split; [exact Hfit | exact Hpred].
Defined.

(** ** Bounds of the metrics *)

Lemma percent_bounds (a b : nat) :
  (a <= b)%nat -> (0 < b)%nat ->
  (0 <= inject_Z (Z.of_nat a) / inject_Z (Z.of_nat b) * 100
   /\ inject_Z (Z.of_nat a) / inject_Z (Z.of_nat b) * 100 <= 100)%Q.
Proof.
  intros Hab Hb.
  assert (Hbq : ~ (inject_Z (Z.of_nat b) == 0)%Q).
  { unfold Qeq. simpl. lia. }
  assert (Ha0 : (0 <= inject_Z (Z.of_nat a))%Q) by (unfold Qle; simpl; lia).
  assert (Hb0 : (0 < inject_Z (Z.of_nat b))%Q) by (unfold Qlt; simpl; lia).
  assert (Hle : (inject_Z (Z.of_nat a) <= inject_Z (Z.of_nat b))%Q) by (unfold Qle; simpl; lia).
  assert (Hfrac0 : (0 <= inject_Z (Z.of_nat a) / inject_Z (Z.of_nat b))%Q).
  { apply Qle_shift_div_l; [exact Hb0|]. now rewrite Qmult_0_l. }
  assert (Hfrac1 : (inject_Z (Z.of_nat a) / inject_Z (Z.of_nat b) <= 1)%Q).
  { apply Qle_shift_div_r; [exact Hb0|]. now rewrite Qmult_1_l. }
  split.
  - apply Qmult_le_0_compat; [exact Hfrac0 | discriminate].
  - apply Qle_trans with (1 * 100)%Q; [|discriminate].
    apply Qmult_le_compat_r; [exact Hfrac1 | discriminate].
Qed.

Lemma filter_length_le {A} (f : A -> bool) (l : list A) :
  (length (List.filter f l) <= length l)%nat.
Proof. induction l as [|a t IH]; simpl; [lia|]. destruct (f a); simpl; lia. Qed.

(** X12.  For equal-length sequences the directional accuracy, when it is
    defined, is a percentage: it lies between 0 and 100. *)
Theorem directional_accuracy_is_percentage `{Numpy} (y_true y_pred : list Q) (d : Q) :
  length y_true = length y_pred ->
  directional_accuracy (Evaluate.compute_metrics y_true y_pred) = Some d ->
  (0 <= d /\ d <= 100)%Q.
Proof.
  intros Hlen. cbn [directional_accuracy Evaluate.compute_metrics].
  rewrite (directional_by_index y_true y_pred Hlen).
  unfold DirectionSpec.rise_match_percent, DirectionSpec.percent_of_pairs.
  destruct (Nat.ltb_spec (length y_true) 2) as [?|H2]; [discriminate|].
  intros [= <-]. apply percent_bounds.
  - apply filter_length_le.
  - rewrite length_seq. lia.
Qed.

Lemma directional_accuracy_is_percentage_witness :
  exists d,
    directional_accuracy (@Evaluate.compute_metrics RationalNumpy [10; 0; 20]%Q [12; 1; 18]%Q) = Some d
    /\ (0 <= d /\ d <= 100)%Q.
Proof.
  eexists. split; [reflexivity|].
  apply (@directional_accuracy_is_percentage RationalNumpy [10; 0; 20]%Q [12; 1; 18]%Q);
    reflexivity.
Defined.

Lemma sum_zero (l : list Q) (acc : Q) :
  Forall (fun q => q == 0)%Q l -> (fold_left Qplus l acc == acc)%Q.
Proof.
  revert acc. induction l as [|x t IH]; intros acc Hall; simpl; [reflexivity|].
  inversion Hall as [|? ? Hx Ht]; subst.
  rewrite (IH _ Ht), Hx. apply Qplus_0_r.
Qed.

Lemma mean_zero (l : list Q) : Forall (fun q => q == 0)%Q l -> (Sklearn.mean l == 0)%Q.
Proof.
  intros Hall. unfold Sklearn.mean, Sklearn.sum, Qdiv.
  rewrite (sum_zero l 0 Hall). apply Qmult_0_l.
Qed.

Lemma eq_elems_refl (a : list bool) : Np.eq_elems a a = map (fun _ => true) a.
Proof.
  unfold Np.eq_elems. induction a as [|b t IH]; simpl; [reflexivity|].
  rewrite IH. now destruct b.
Qed.

Lemma count_all_true {A} (l : list A) :
  count_occ bool_dec (map (fun _ => true) l) true = length l.
Proof. induction l as [|a t IH]; simpl; [reflexivity | now rewrite IH]. Qed.

Lemma diff_length (y : list Q) : length (Np.diff y) = (length y - 1)%nat.
Proof. now rewrite diff_by_index, length_map, length_seq. Qed.

Lemma select_no_true {A} (l : list A) (f : A -> bool) :
  count_occ bool_dec (map f l) true = 0%nat -> Forall (fun a => f a = false) l.
Proof.
  induction l as [|a t IH]; simpl; intros Hc; [constructor|].
  destruct (f a) eqn:E; simpl in Hc; [discriminate|].
  constructor; [exact E | now apply IH].
Qed.

(** X13.  A prediction equal to the truth, on at least two points, scores
    a directional accuracy of 100, and its MAPE is 0; the MAPE is NaN
    exactly when no true value exceeds 1e-6 in absolute value. *)
Theorem perfect_prediction_metrics `{Numpy} (y : list Q) :
  (2 <= length y)%nat ->
  metric_eq (directional_accuracy (Evaluate.compute_metrics y y)) (Some 100%Q)
  /\ match mape (Evaluate.compute_metrics y y) with
     | Some m => (m == 0)%Q /\ Exists (fun v => (1 # 1000000 < Qabs v)%Q) y
     | None => Forall (fun v => (Qabs v <= 1 # 1000000)%Q) y
     end.
Proof.
  intros Hlen. cbn [directional_accuracy mape Evaluate.compute_metrics]. split.
  - destruct (Nat.ltb_spec 1 (length y)) as [_|?]; [|lia].
    unfold Np.gt0. rewrite eq_elems_refl. unfold Np.mean_bool.
    rewrite count_all_true, !length_map, diff_length.
    cbn [metric_eq]. field. unfold Qeq. simpl. lia.
  - destruct (Nat.ltb_spec 0 (count_occ bool_dec
               (map (fun v => Py.gtb (Qabs v) (1 # 1000000)) y) true)) as [Hpos|Hzero].
    + split.
      * rewrite mean_zero; [reflexivity|].
        apply List.Forall_forall. intros q Hq.
        apply in_map_iff in Hq as (u & <- & Hu).
        unfold Np.div, Np.sub in Hu.
        apply in_map_iff in Hu as ([n dn] & <- & Hnd). cbn [fst snd].
        apply in_combine_l in Hnd.
        apply in_map_iff in Hnd as ([v v'] & <- & Hvv). cbn [fst snd].
        assert (v = v') as <-.
        { clear -Hvv. revert Hvv.
          generalize (Np.select y (map (fun v0 => Py.gtb (Qabs v0) (1 # 1000000)) y)).
          intros l. induction l as [|x t IH]; simpl; [tauto|].
          intros [[= -> ->]|Hin]; [reflexivity | now apply IH]. }
        assert (Hz : (v - v == 0)%Q) by ring.
        unfold Qdiv. rewrite Hz, Qmult_0_l. reflexivity.
      * apply List.Exists_exists.
        destruct (List.in_dec bool_dec true (map (fun v => Py.gtb (Qabs v) (1 # 1000000)) y))
          as [Hin|Hnin].
        -- apply in_map_iff in Hin as (v & Hv & Hvin). exists v. split; [exact Hvin|].
           now apply ltb_lt.
        -- apply (count_occ_not_In bool_dec) in Hnin. lia.
    + apply List.Forall_forall. intros v Hv.
      assert (Hc : count_occ bool_dec (map (fun v => Py.gtb (Qabs v) (1 # 1000000)) y) true = 0%nat)
        by lia.
      apply select_no_true in Hc. rewrite List.Forall_forall in Hc.
      specialize (Hc v Hv). unfold Py.gtb, Py.ltb in Hc.
      apply negb_false_iff, Qle_bool_iff in Hc. exact Hc.
Qed.

Lemma perfect_prediction_metrics_witness :
  metric_eq (directional_accuracy (@Evaluate.compute_metrics RationalNumpy [10; 0; 20]%Q [10; 0; 20]%Q))
            (Some 100%Q).
Proof.
  apply (@perfect_prediction_metrics RationalNumpy [10; 0; 20]%Q). simpl. lia.
Defined.

(** ** The fitted scalers *)

Lemma ltb_ge (x y : Q) : Py.ltb x y = false -> (y <= x)%Q.
Proof.
  unfold Py.ltb. intros Hb. apply negb_false_iff in Hb. now apply Qle_bool_iff.
Qed.

Lemma handle_zeros_nonzero (s : Q) : ~ (Sklearn.handle_zeros s == 0)%Q.
Proof.
  unfold Sklearn.handle_zeros. destruct (Qeq_bool s 0) eqn:E.
  - discriminate.
  - now apply Qeq_bool_neq.
Qed.

Lemma fitted_scale_nonzero `{Numpy} (k : Sklearn.scaler_kind) (X : list Q) :
  match Sklearn.fit_params k X with
  | Sklearn.StandardParams _ _ sc => ~ (sc == 0)%Q
  | Sklearn.MinMaxParams _ _ sc _ => ~ (sc == 0)%Q
  end.
Proof.
  destruct k; cbn [Sklearn.fit_params].
  - apply handle_zeros_nonzero.
  - intros Hz. apply (handle_zeros_nonzero (Sklearn.maximum X - Sklearn.minimum X)).
    set (r := Sklearn.handle_zeros (Sklearn.maximum X - Sklearn.minimum X)) in *.
    destruct (Qeq_dec r 0) as [Hr|Hr]; [exact Hr|].
    exfalso. apply (Q_apart_0_1). rewrite <- (Qmult_inv_r r Hr).
    unfold Qdiv in Hz. rewrite Qmult_1_l in Hz. rewrite Hz. ring.
Qed.



Lemma sum_shift (l : list Q) (acc : Q) :
  (fold_left Qplus l acc == acc + fold_left Qplus l 0)%Q.
Proof.
  revert acc. induction l as [|x t IH]; intros acc; simpl; [ring|].
  rewrite (IH (acc + x)%Q), (IH (0 + x)%Q). ring.
Qed.

Lemma sum_centered (l : list Q) (m sc : Q) :
  ~ (sc == 0)%Q ->
  (Sklearn.sum (map (fun x => (x - m) / sc) l)
   == (Sklearn.sum l - inject_Z (Z.of_nat (length l)) * m) / sc)%Q.
Proof.
  intros Hsc. unfold Sklearn.sum. induction l as [|x t IH].
  - simpl. field. exact Hsc.
  - cbn [map fold_left length].
    rewrite (sum_shift (map _ t)), (sum_shift t (0 + x)), IH.
    rewrite Nat2Z.inj_succ, <- Z.add_1_r, inject_Z_plus. field. exact Hsc.
Qed.

(** X15.  After a standardizing scaler is fitted on a non-empty train
    sequence, the transformed train sequence has mean 0. *)
Theorem standard_scaler_centers_train `{Numpy} (train : list Q) :
  train <> [] ->
  (Sklearn.mean (map (Sklearn.transform1 (Sklearn.fit_params Sklearn.StandardScaler train)) train)
   == 0)%Q.
Proof.
  intros Hne. pose proof (fitted_scale_nonzero Sklearn.StandardScaler train) as Hsc.
  cbn [Sklearn.fit_params] in *.
  set (sc := Sklearn.handle_zeros _) in *. set (v := Sklearn.mean (map (fun x => _ * _)%Q train)).
  change (map (Sklearn.transform1 (Sklearn.StandardParams (Sklearn.mean train) v sc)) train)
    with (map (fun x => (x - Sklearn.mean train) / sc)%Q train).
  unfold Sklearn.mean at 1. rewrite length_map.
  rewrite (sum_centered train (Sklearn.mean train) sc Hsc).
  unfold Sklearn.mean.
  assert (Hn : ~ (inject_Z (Z.of_nat (length train)) == 0)%Q).
  { destruct train; [congruence|]. unfold Qeq. simpl. lia. }
  field. split; assumption.
Qed.

Lemma standard_scaler_centers_train_witness :
  (Sklearn.mean (map (Sklearn.transform1
                        (@Sklearn.fit_params RationalNumpy Sklearn.StandardScaler [10; 20; 30]%Q))
                     [10; 20; 30]%Q) == 0)%Q.
Proof.
  apply (@standard_scaler_centers_train RationalNumpy [10; 20; 30]%Q). discriminate.
Defined.

Lemma fold_min_bound (t : list Q) (a : Q) :
  (fold_left (fun a b => if Py.ltb b a then b else a) t a <= a)%Q
  /\ forall y, In y t -> (fold_left (fun a b => if Py.ltb b a then b else a) t a <= y)%Q.
Proof.
  revert a. induction t as [|b t IH]; intros a; simpl; [split; [apply Qle_refl | tauto]|].
  destruct (IH (if Py.ltb b a then b else a)) as [Hacc Hin].
  assert (Hstep : ((if Py.ltb b a then b else a) <= a /\ (if Py.ltb b a then b else a) <= b)%Q).
  { destruct (Py.ltb b a) eqn:E.
    - split; [apply Qlt_le_weak; now apply ltb_lt | apply Qle_refl].
    - split; [apply Qle_refl | now apply ltb_ge]. }
  split; [eapply Qle_trans; [exact Hacc | apply Hstep]|].
  intros y [<-|Hy]; [eapply Qle_trans; [exact Hacc | apply Hstep] | now apply Hin].
Qed.

Lemma fold_max_bound (t : list Q) (a : Q) :
  (a <= fold_left (fun a b => if Py.ltb a b then b else a) t a)%Q
  /\ forall y, In y t -> (y <= fold_left (fun a b => if Py.ltb a b then b else a) t a)%Q.
Proof.
  revert a. induction t as [|b t IH]; intros a; simpl; [split; [apply Qle_refl | tauto]|].
  destruct (IH (if Py.ltb a b then b else a)) as [Hacc Hin].
  assert (Hstep : (a <= (if Py.ltb a b then b else a) /\ b <= (if Py.ltb a b then b else a))%Q).
  { destruct (Py.ltb a b) eqn:E.
    - split; [apply Qlt_le_weak; now apply ltb_lt | apply Qle_refl].
    - split; [apply Qle_refl | now apply ltb_ge]. }
  split; [eapply Qle_trans; [apply Hstep | exact Hacc]|].
  intros y [<-|Hy]; [eapply Qle_trans; [apply Hstep | exact Hacc] | now apply Hin].
Qed.

Lemma min_max_bounds (X : list Q) (x : Q) :
  In x X -> (Sklearn.minimum X <= x /\ x <= Sklearn.maximum X)%Q.
Proof.
  destruct X as [|a t]; [contradiction|]. unfold Sklearn.minimum, Sklearn.maximum.
  destruct (fold_min_bound t a) as [Hmin Hmin']. destruct (fold_max_bound t a) as [Hmax Hmax'].
  intros [<-|Hx]; split; auto.
Qed.

(** X16.  After a min-max scaler is fitted on a train sequence, every train
    value is transformed into the interval [0, 1]. *)
Theorem minmax_scaler_unit_interval `{Numpy} (train : list Q) (x : Q) :
  In x train ->
  (0 <= Sklearn.transform1 (Sklearn.fit_params Sklearn.MinMaxScaler train) x
   /\ Sklearn.transform1 (Sklearn.fit_params Sklearn.MinMaxScaler train) x <= 1)%Q.
Proof.
  intros Hx. destruct (min_max_bounds train x Hx) as [Hlo Hhi].
  cbn [Sklearn.fit_params Sklearn.transform1].
  set (lo := Sklearn.minimum train) in *. set (hi := Sklearn.maximum train) in *.
  pose proof (handle_zeros_nonzero (hi - lo)) as Hnz.
  assert (Heq : (x * (1 / Sklearn.handle_zeros (hi - lo))
                 + (0 - lo * (1 / Sklearn.handle_zeros (hi - lo)))
                 == (x - lo) / Sklearn.handle_zeros (hi - lo))%Q) by now field.
  rewrite Heq. clear Heq.
  assert (Hxlo : (0 <= x - lo)%Q) by (rewrite <- (Qplus_opp_r lo); now apply Qplus_le_compat; [|apply Qle_refl]).
  unfold Sklearn.handle_zeros in *. destruct (Qeq_bool (hi - lo) 0) eqn:E.
  - apply Qeq_bool_iff in E.
    assert (Hx0 : (x - lo == 0)%Q).
    { apply Qle_antisym; [|exact Hxlo]. rewrite <- E.
      apply Qplus_le_compat; [exact Hhi | apply Qle_refl]. }
    rewrite Hx0. split; discriminate.
  - assert (Hpos : (0 < hi - lo)%Q).
    { apply Qeq_bool_neq in E. apply Qnot_le_lt. intros Hle. apply E.
      apply Qle_antisym; [exact Hle|].
      eapply Qle_trans; [exact Hxlo|]. apply Qplus_le_compat; [exact Hhi | apply Qle_refl]. }
    split.
    + apply Qle_shift_div_l; [exact Hpos|]. now rewrite Qmult_0_l.
    + apply Qle_shift_div_r; [exact Hpos|]. rewrite Qmult_1_l.
      apply Qplus_le_compat; [exact Hhi | apply Qle_refl].
Qed.

Lemma minmax_scaler_unit_interval_witness :
  (0 <= Sklearn.transform1 (@Sklearn.fit_params RationalNumpy Sklearn.MinMaxScaler [10; 20; 30]%Q) 20
   /\ Sklearn.transform1 (@Sklearn.fit_params RationalNumpy Sklearn.MinMaxScaler [10; 20; 30]%Q) 20
      <= 1)%Q.
Proof.
  apply (@minmax_scaler_unit_interval RationalNumpy [10; 20; 30]%Q 20). simpl. tauto.
Defined.

(** ** Early stopping *)

Section EarlyStopping.
Context `{Trainer}.



Lemma loop_without_validation (n : nat) (s : Train.loop_state) :
  (forall st, snd (val_batches st) = []) ->
  Train.best_val_loss s = Some 0%Q ->
  (Train.patience_counter s < Train.patience)%nat ->
  length (Train.train_losses (Train.loop n s))
  = (length (Train.train_losses s) + Nat.min n (Train.patience - Train.patience_counter s))%nat
  /\ Train.best_val_loss (Train.loop n s) = Some 0%Q.
Proof.
  intros Hval. revert s. induction n as [|n IH]; intros s Hbest Hc.
  - cbn. split; [lia | exact Hbest].
  - cbn [Train.loop].
    destruct (Train.train_epoch (Train.model_state s)) as [st1 train_loss].
    unfold Train.validate. specialize (Hval st1).
    destruct (val_batches st1) as [st2 losses]. cbn [snd] in Hval. subst losses.
    change (Train.average []) with 0%Q. rewrite Hbest.
    change (Train.improves 0 (Some 0%Q)) with false. cbv iota.
    destruct (Nat.leb_spec Train.patience (Train.patience_counter s + 1)) as [Hstop|Hgo].
    + cbn [Train.train_losses Train.best_val_loss]. rewrite length_app. cbn [length].
      split; [unfold Train.patience in *; lia | reflexivity].
    + match goal with |- context [Train.loop n ?s'] =>
        destruct (IH s' eq_refl) as (L & B); [cbn; lia|] end.
      rewrite L, B. cbn [Train.train_losses Train.patience_counter].
      rewrite length_app. cbn [length]. split; [unfold Train.patience in *; lia | reflexivity].
Qed.

(** X18.  When no validation batch is ever run (the validation set yields
    no window), [validate] returns 0.0 every epoch, the first epoch sets
    the best loss to 0.0 and no later epoch improves on it: training runs
    exactly min(epochs, 11) epochs. *)
Theorem training_without_validation_stops_at_11 (epochs : Z) (st0 : train_state) :
  (forall st, snd (val_batches st) = []) ->
  1 <= epochs ->
  Z.of_nat (length (Train.train_losses (Train.train epochs st0))) = Z.min epochs 11
  /\ Train.best_val_loss (Train.train epochs st0) = Some 0%Q.
Proof.
  intros Hval Hep. unfold Train.train.
  destruct (Z.to_nat epochs) as [|n] eqn:En; [lia|].
  cbn [Train.loop Train.start Train.model_state Train.best_val_loss Train.improves
       Train.train_losses Train.val_losses Train.patience_counter].
  destruct (Train.train_epoch st0) as [st1 train_loss].
  unfold Train.validate. pose proof (Hval st1) as Hv1.
  destruct (val_batches st1) as [st2 losses]. cbn [snd] in Hv1. subst losses.
  change (Train.average []) with 0%Q.
  match goal with |- context [Train.loop n ?s'] =>
    destruct (loop_without_validation n s' Hval eq_refl) as (L & B);
      [cbn; unfold Train.patience; lia|] end.
  rewrite L, B. cbn [Train.train_losses Train.patience_counter app length].
  unfold Train.patience. split; [lia | reflexivity].
Qed.

End EarlyStopping.

Lemma training_without_validation_stops_at_11_witness :
  Z.of_nat (length (Train.train_losses (@Train.train NoValidationTrainer 50 0%nat))) = Z.min 50 11.
Proof.
  apply (@training_without_validation_stops_at_11 NoValidationTrainer 50 0%nat).
  - reflexivity.
  - lia.
Defined.

(** ** [predict_sequence] and [predict_recursive] *)

Section PredictSequence.
Context `{Torch}.




End PredictSequence.


(** ** From export to serving *)

(** X20.  When the directory name computed by the training script is the
    one the service computes, a fresh service loads what was exported: the
    same weights in inference mode, the same scaler, the exported window
    size and timestamp, read from that directory once and cached.  Export
    leaves every other artifact directory and every CSV as they were. *)
Theorem export_then_serve `{Torch} (disk : Disk) (role location : string)
    (model : LSTMForecaster) (scaler : Sklearn.scaler) (window : Z) (now : string) :
  Slug.train_artifacts_dir role location = Slug.get_artifacts_path role location ->
  ForecastService.load_model (train_export role location model scaler window now disk)
    role location ForecastService.init
  = (Ok {| art_model := eval model; art_scaler := scaler;
           art_metadata := {| md_window_size := window;
                              md_model_type := Some "lstm"%string;
                              md_trained_at := Some now |} |},
     {| ForecastService.cache :=
          <[ForecastService.get_model_key role location :=
              {| art_model := eval model; art_scaler := scaler;
                 art_metadata := {| md_window_size := window;
                                    md_model_type := Some "lstm"%string;
                                    md_trained_at := Some now |} |}]> ∅;
        ForecastService.disk_loads := [Slug.get_artifacts_path role location];
        ForecastService.recursive_calls := [] |})
  /\ (forall dir, dir <> Slug.train_artifacts_dir role location ->
        artifact_dirs (train_export role location model scaler window now disk) !! dir
        = artifact_dirs disk !! dir)
  /\ csv_files (train_export role location model scaler window now disk) = csv_files disk.
Proof.
  intros Hkey. split; [|split].
  - unfold ForecastService.load_model, train_export, export_model.
    cbn [ForecastService.init ForecastService.cache artifact_dirs
         ForecastService.disk_loads ForecastService.recursive_calls].
    rewrite lookup_empty, Hkey, lookup_insert_eq. reflexivity.
  - intros dir Hdir. unfold train_export, export_model. cbn [artifact_dirs].
    now apply lookup_insert_ne.
  - reflexivity.
Qed.

Lemma export_then_serve_witness :
  exists a self1,
    ForecastService.load_model
      (@train_export DriftTorch "Software Engineer" "New York, NY" drift_model fitted_minmax 12
         "2026-01-05T10:00:00" new_york_disk)
      "Software Engineer" "New York, NY" ForecastService.init = (Ok a, self1)
    /\ md_window_size (art_metadata a) = 12.
Proof.
  eexists. eexists. split.
  - apply (@export_then_serve DriftTorch new_york_disk "Software Engineer" "New York, NY"
             drift_model fitted_minmax 12 "2026-01-05T10:00:00"). reflexivity.
  - reflexivity.
Defined.

(** ** The endpoints *)

Section Endpoints.
Context `{Torch}.

Lemma getitem_raises {A} (l : list A) (i : Z) (e : exn) :
  Py.getitem l i = Raise e -> e = IndexError.
Proof.
  unfold Py.getitem.
  destruct (_ || _); [now intros [= <-]|].
  destruct (nth_error l _); [discriminate | now intros [= <-]].
Qed.

Lemma predict_recursive_raises (model : LSTMForecaster) (sc : Sklearn.scaler)
    (seed : list Q) (h : Z) (e : exn) :
  ForecastService.predict_recursive model sc seed h = Raise e -> e = NotFittedError.
Proof.
  unfold ForecastService.predict_recursive, Sklearn.transform, Sklearn.inverse_transform.
  destruct (Sklearn.fitted sc) eqn:E; cbn [rbind fst snd]; [|now intros [= <-]].
  rewrite E. discriminate.
Qed.

(** [forecast] raises [FileNotFoundError] exactly when the model or the
    history cannot be found. *)
Lemma forecast_file_not_found (disk : Disk) (role location : string) (h : Z)
    (self : ForecastService.t) :
  fst (ForecastService.forecast disk role location h self) = Raise FileNotFoundError
  <-> (ForecastService.cache self !! ForecastService.get_model_key role location = None
       /\ artifact_dirs disk !! Slug.get_artifacts_path role location = None)
      \/ csv_files disk !! DataStore.get_csv_path role location = None.
Proof.
  unfold ForecastService.forecast, ForecastService.bind, ForecastService.lift,
    ForecastService.call_predict_recursive, ForecastService.ret, ForecastService.raise.
  unfold ForecastService.load_model at 1.
  destruct (ForecastService.cache self !! ForecastService.get_model_key role location)
    as [a|] eqn:Hc.
  2: destruct (artifact_dirs disk !! Slug.get_artifacts_path role location) as [stored|] eqn:Hd.
  3: { cbn [fst]. split; [intros _; left; now split | reflexivity]. }
  all: unfold DataStore.load_series;
    destruct (csv_files disk !! DataStore.get_csv_path role location) as [rows|] eqn:Hcsv;
    [|cbn [fst]; split; [intros _; now right | reflexivity]].
  all: split; [|intros [[? ?]|?]; congruence].
  all: intros Hraise; exfalso; revert Hraise.
  all: repeat (cbn [fst];
         first
           [ discriminate
           | match goal with
             | |- context [ForecastService.predict_recursive ?m ?s ?v ?hh] =>
                 let Hp := fresh "Hp" in
                 destruct (ForecastService.predict_recursive m s v hh) as [?|?] eqn:Hp;
                 [|apply predict_recursive_raises in Hp; subst]
             | |- context [Py.getitem ?l ?i] =>
                 let Hg := fresh "Hg" in
                 destruct (Py.getitem l i) as [?|?] eqn:Hg;
                 [|apply getitem_raises in Hg; subst]
             | |- context [if ?b then _ else _] => destruct b
             end ]).
Qed.

(** X21.  The status codes of [get_forecast].  A horizon outside 1..52 is
    answered 422 without touching the service.  For a horizon in range the
    answer is 404 exactly when neither the cache nor the disk has the model
    or when the history CSV is missing; and a history shorter than the
    window is answered 400. *)
Theorem get_forecast_status_codes (disk : Disk) (role location : string)
    (self : ForecastService.t) :
  (forall h, h < 1 \/ 52 < h ->
      Api.get_forecast disk role location (Some h) self = (Api.HttpError 422, self))
  /\ (forall h, 1 <= h <= 52 ->
      (fst (Api.get_forecast disk role location (Some h) self) = Api.HttpError 404
       <-> (ForecastService.cache self !! ForecastService.get_model_key role location = None
            /\ artifact_dirs disk !! Slug.get_artifacts_path role location = None)
           \/ csv_files disk !! DataStore.get_csv_path role location = None))
  /\ (forall h a self1 df, 1 <= h <= 52 ->
      ForecastService.load_model disk role location self = (Ok a, self1) ->
      DataStore.load_series disk role location (Some DataStore.MAX_HISTORY_WEEKS) = Ok df ->
      Z.of_nat (length df) < md_window_size (art_metadata a) ->
      Api.get_forecast disk role location (Some h) self = (Api.HttpError 400, self1)).
Proof.
  split; [|split].
  - intros h Hh. unfold Api.get_forecast.
    change (default Api.DEFAULT_HORIZON (Some h)) with h. cbv zeta.
    destruct (Z.ltb_spec h 1); destruct (Z.ltb_spec 52 h); try reflexivity; exfalso; lia.
  - intros h Hh. rewrite <- forecast_file_not_found with (h := h).
    unfold Api.get_forecast.
    change (default Api.DEFAULT_HORIZON (Some h)) with h. cbv zeta.
    destruct (Z.ltb_spec h 1); [lia|]. destruct (Z.ltb_spec 52 h); [lia|]. cbn [orb].
    destruct (ForecastService.forecast disk role location h self) as [[r|e] s]; cbn [fst].
    + split; discriminate.
    + split; [|now intros [= ->]].
      destruct e; cbn; intros Hs; try reflexivity; discriminate Hs.
  - intros h a self1 df Hh Hload Hseries Hshort. unfold Api.get_forecast.
    change (default Api.DEFAULT_HORIZON (Some h)) with h. cbv zeta.
    destruct (Z.ltb_spec h 1); [lia|]. destruct (Z.ltb_spec 52 h); [lia|]. cbn [orb].
    rewrite (forecast_after_loads _ _ _ _ _ _ a df Hload Hseries) by now apply Z.ltb_lt.
    reflexivity.
Qed.

(** X22.  [get_series] answers 404 when the CSV is missing.  Otherwise it
    returns the dated points of the file in ascending order, limited by
    [max_weeks]: the last [max_weeks] rows when it is positive, the last
    104 when it is 0 or absent, and, when it is negative, all rows but the
    first [-max_weeks]. *)
Theorem get_series_limit (disk : Disk) (role location : string) (max_weeks : option Z) :
  Api.get_series disk role location max_weeks
  = match csv_files disk !! DataStore.get_csv_path role location with
    | None => Api.HttpError 404
    | Some rows =>
        let sorted := Datasets.sort_values rows in
        let dropped :=
          match max_weeks with
          | None => (length rows - 104)%nat
          | Some n => if n =? 0 then (length rows - 104)%nat
                      else if 0 <? n then (length rows - Z.to_nat n)%nat
                      else Z.to_nat (- n)
          end in
        Api.Http200 {| Api.sr_role := role; Api.sr_location := location;
                       Api.sr_series := DataStore.to_time_series_points (skipn dropped sorted) |}
    end.
Proof.
  unfold Api.get_series.
  destruct (csv_files disk !! DataStore.get_csv_path role location) as [rows|] eqn:Hcsv.
  2: { now rewrite (load_series_missing _ _ _ _ Hcsv). }
  cbv zeta.
  assert (Hpos : forall n, 0 < n ->
            DataStore.load_series disk role location (Some n)
            = Ok (skipn (length rows - Z.to_nat n) (Datasets.sort_values rows)))
    by (intros n Hn; now apply load_series_found).
  destruct max_weeks as [n|]; [|now rewrite Hpos by (unfold DataStore.MAX_HISTORY_WEEKS; lia)].
  destruct (Z.eqb_spec n 0) as [_|Hn0];
    [now rewrite Hpos by (unfold DataStore.MAX_HISTORY_WEEKS; lia)|].
  destruct (Z.ltb_spec 0 n) as [Hn|Hn]; [now rewrite Hpos|].
  unfold DataStore.load_series. rewrite Hcsv.
  destruct (Z.eqb_spec n 0) as [?|_]; [lia|].
  unfold DataStore.tail. destruct (Z.eqb_spec n 0) as [?|_]; [lia|].
  replace (- n) with (Z.of_nat (Z.to_nat (- n))) at 1 by lia.
  now rewrite slice_from.
Qed.

End Endpoints.

Lemma get_forecast_status_codes_witness :
  fst (Api.get_forecast new_york_disk "Data Scientist" "Austin,TX" (Some 8) ForecastService.init)
  = Api.HttpError 404.
Proof.
  apply (proj1 (proj2 (@get_forecast_status_codes DriftTorch new_york_disk
                         "Data Scientist" "Austin,TX" ForecastService.init)) 8 ltac:(lia)).
  right. vm_compute. reflexivity.
Defined.

(** ** The split is chronological; the datasets stay within their segment *)

Lemma sorted_app_le (l1 l2 : Datasets.DataFrame) :
  Sorted Spec.date_le (l1 ++ l2) ->
  forall a b, In a l1 -> In b l2 -> Datasets.week_start a <= Datasets.week_start b.
Proof.
  intros Hs. apply (Sorted_StronglySorted date_le_trans) in Hs.
  induction l1 as [|x t IH]; intros a b Ha Hb; [contradiction|].
  cbn [app] in Hs. inversion Hs as [|? ? Hst Hall]; subst.
  destruct Ha as [->|Ha]; [|now apply IH].
  rewrite List.Forall_forall in Hall. apply Hall. apply in_or_app. now right.
Qed.

Lemma sorted_app_r (l1 l2 : Datasets.DataFrame) :
  Sorted Spec.date_le (l1 ++ l2) -> Sorted Spec.date_le l2.
Proof.
  induction l1 as [|x t IH]; intros Hs; [exact Hs|].
  apply IH. now inversion Hs.
Qed.

(** X23.  With non-negative train and validation ratios, a split that
    returns gives three parts that together are exactly the rows of the
    input, and that are in chronological order: no train date is later
    than a validation date, and no validation date later than a test date. *)
Theorem split_time_series_is_chronological (df : Datasets.DataFrame) (r_train r_val r_test : Q)
    (train val test : Datasets.DataFrame) :
  (0 <= r_train)%Q -> (0 <= r_val)%Q ->
  Datasets.split_time_series df r_train r_val r_test = Ok (train, val, test) ->
  Permutation df (train ++ val ++ test)
  /\ (length train + length val + length test)%nat = length df
  /\ (forall a b, In a train -> In b val -> Datasets.week_start a <= Datasets.week_start b)
  /\ (forall b c, In b val -> In c test -> Datasets.week_start b <= Datasets.week_start c)
  /\ (forall a c, In a train -> In c test -> Datasets.week_start a <= Datasets.week_start c).
Proof.
  intros Ht Hv. unfold Datasets.split_time_series.
  destruct (Py.ltb (Qabs (r_train + r_val + r_test - 1)) (1 # 1000000)); [|discriminate].
  cbv zeta.
  destruct (split_cuts df r_train r_val Ht Hv) as (Ha & Hb & Hcuts). cbv zeta in Ha, Hb, Hcuts.
  destruct (slices_of_cuts (Datasets.sort_values df) _ _ Hcuts) as (S1 & S2 & S3 & Hcat).
  rewrite Ha, Hb, S1, S2, S3.
  pose proof (sort_values_sorted df) as Hsorted.
  pose proof (sort_values_perm df) as Hperm.
  pose proof (sort_values_length df) as Hlen.
  rewrite <- Hcat in Hsorted at 1. rewrite <- Hcat in Hperm at 1. rewrite <- Hcat in Hlen at 1.
  clear Hcat S1 S2 S3.
  match goal with
  | |- Ok (?a, ?b, ?c) = _ -> _ =>
      set (part1 := a) in *; set (part2 := b) in *; set (part3 := c) in *
  end.
  clearbody part1 part2 part3.
  intros [= <- <- <-].
  split; [exact Hperm|].
  split; [rewrite !length_app in Hlen; lia|].
  split; [|split].
  - intros a b Ha' Hb'. apply (sorted_app_le _ _ Hsorted a b Ha'). apply in_or_app. now left.
  - intros b c Hb' Hc'. apply sorted_app_r in Hsorted. now apply (sorted_app_le _ _ Hsorted).
  - intros a c Ha' Hc'. apply (sorted_app_le _ _ Hsorted a c Ha'). apply in_or_app. now right.
Qed.

Lemma split_time_series_is_chronological_witness :
  exists train val test,
    Datasets.split_time_series ten_weeks (7 # 10) (15 # 100) (15 # 100) = Ok (train, val, test)
    /\ (length train + length val + length test)%nat = length ten_weeks.
Proof.
  destruct (Datasets.split_time_series ten_weeks (7 # 10) (15 # 100) (15 # 100))
    as [[[train val] test]|e] eqn:E; [|vm_compute in E; discriminate E].
  exists train, val, test. split; [reflexivity|].
  apply (split_time_series_is_chronological ten_weeks (7 # 10) (15 # 100) (15 # 100)
           train val test); [unfold Qle; simpl; lia | unfold Qle; simpl; lia | exact E].
Defined.

(** X24.  With no scaler passed in, a call of [prepare_datasets] that
    returns has scaled each segment with the parameters fitted on the train
    values, and has built every dataset from its own segment alone: its
    windows are the windows of that segment's scaled values, and it has
    max(len(segment) - window_size, 0) of them. *)
Theorem prepare_datasets_per_segment `{Numpy} (train_df val_df test_df : Datasets.DataFrame)
    (w : nat) (ty : string) (k : Sklearn.scaler_kind)
    (tr va te : Datasets.TimeSeriesDataset) (sc : Sklearn.scaler) :
  kind_of_type ty = Some k ->
  Datasets.prepare_datasets train_df val_df test_df w ty None = Ok (tr, va, te, sc) ->
  let scale := Sklearn.transform1 (Sklearn.fit_params k (Datasets.values train_df)) in
  let windows := fun (segment : Datasets.DataFrame) =>
    map (fun i => firstn w (skipn i (map scale (Datasets.values segment))))
        (seq 0 (length segment - w)) in
  Datasets.data tr = map scale (Datasets.values train_df)
  /\ Datasets.data va = map scale (Datasets.values val_df)
  /\ Datasets.data te = map scale (Datasets.values test_df)
  /\ Datasets.X tr = windows train_df
  /\ Datasets.X va = windows val_df
  /\ Datasets.X te = windows test_df.
Proof.
  intros Hk. unfold Datasets.prepare_datasets. unfold kind_of_type in Hk.
  assert (Hchoice :
    (if String.eqb ty "standard" then Ok (Sklearn.new Sklearn.StandardScaler)
     else if String.eqb ty "minmax" then Ok (Sklearn.new Sklearn.MinMaxScaler)
     else Raise UnknownScalerType) = Ok (Sklearn.new k)).
  { destruct (String.eqb ty "standard"); [now injection Hk as <-|].
    destruct (String.eqb ty "minmax"); [now injection Hk as <-|discriminate]. }
  rewrite Hchoice. cbn [rbind].
  unfold Sklearn.transform, Sklearn.fit. cbn [Sklearn.fitted Sklearn.kind Sklearn.new rbind fst snd].
  rewrite !init_eq. cbn [rbind]. intros [= <- <- <- <-]. cbv zeta.
  cbn [Datasets.data Datasets.X]. unfold Datasets.values. rewrite !length_map.
  repeat split.
Qed.

Lemma prepare_datasets_per_segment_witness :
  exists tr va te sc,
    @Datasets.prepare_datasets RationalNumpy three_weeks ten_weeks ten_weeks 2 "minmax" None
    = Ok (tr, va, te, sc)
    /\ Datasets.data va
       = map (Sklearn.transform1
                (@Sklearn.fit_params RationalNumpy Sklearn.MinMaxScaler (Datasets.values three_weeks)))
             (Datasets.values ten_weeks).
Proof.
  destruct (@Datasets.prepare_datasets RationalNumpy three_weeks ten_weeks ten_weeks 2 "minmax" None)
    as [[[[tr va] te] sc]|e] eqn:E; [|vm_compute in E; discriminate E].
  exists tr, va, te, sc. split; [reflexivity|].
  apply (@prepare_datasets_per_segment RationalNumpy three_weeks ten_weeks ten_weeks 2 "minmax"
           Sklearn.MinMaxScaler tr va te sc eq_refl E).
Defined.
